(** * MJML rendering server: a shallow embedding of [server.js]

    The server wraps the MJML compiler behind two POST routes, [/render]
    and [/render-batch], a [preHandler] hook that bounds the size of a
    batch, and an error handler.  The embedding keeps JavaScript's dynamic
    values for everything a client controls (request bodies, batch items,
    ids) and threads two effects explicitly: exceptions, and the log of
    calls made to the compiler. *)

From Stdlib Require Import List ZArith NArith Bool String Ascii Lia.
Import ListNotations.

Open Scope string_scope.
Open Scope Z_scope.
Open Scope list_scope.

Set Warnings "-register-all".

(** ** JavaScript strings and values *)

(** A JavaScript string is a sequence of UTF-16 code units; [s.length]
    counts them. *)
Definition jsstring := list N.

(** A string literal of the program text (ASCII). *)
Definition js (s : string) : jsstring :=
  map N_of_ascii (list_ascii_of_string s).

Arguments js : simpl never.

Fixpoint jsstring_eqb (s t : jsstring) : bool :=
  match s, t with
  | [], [] => true
  | a :: s', b :: t' => N.eqb a b && jsstring_eqb s' t'
  | _, _ => false
  end.

(** Values as [JSON.parse] and the handlers produce them.  Numbers that
    occur are indices, lengths, status codes, line numbers and ids; they
    are only echoed or compared, and are carried as integers.  An object
    is the list of its own properties. *)
Inductive value : Type :=
| VUndefined
| VNull
| VBool (b : bool)
| VNum (n : Z)
| VStr (s : jsstring)
| VArr (elems : list value)
| VObj (props : list (string * value)).

Abbreviation object := (list (string * value)).

(** [o.p] on an object literal or a parsed object: the property, or
    [undefined]. *)
Fixpoint lookup (p : string) (o : object) : value :=
  match o with
  | [] => VUndefined
  | (k, v) :: o' => if String.eqb k p then v else lookup p o'
  end.

(** Truthiness, as [!v], [a && b] and [a || b] use it. *)
Definition truthy (v : value) : bool :=
  match v with
  | VUndefined | VNull => false
  | VBool b => b
  | VNum n => negb (n =? 0)
  | VStr s => match s with [] => false | _ => true end
  | VArr _ | VObj _ => true
  end.

(** [a || b] *)
Definition js_or (a b : value) : value := if truthy a then a else b.

(** [typeof v === 'string'] *)
Definition typeof_string (v : value) : bool :=
  match v with VStr _ => true | _ => false end.

(** [Array.isArray(v)] *)
Definition isArray (v : value) : bool :=
  match v with VArr _ => true | _ => false end.

(** [v === 'literal'] and [v === n] *)
Definition strict_equals_string (v : value) (s : jsstring) : bool :=
  match v with VStr t => jsstring_eqb t s | _ => false end.

Definition strict_equals_number (v : value) (n : Z) : bool :=
  match v with VNum m => m =? n | _ => false end.

(** [v !== undefined] *)
Definition is_defined (v : value) : bool :=
  match v with VUndefined => false | _ => true end.

(** [v === undefined || v === null] *)
Definition nullish (v : value) : bool :=
  match v with VUndefined | VNull => true | _ => false end.

(** [a ?? b] *)
Definition nullish_or (a b : value) : value :=
  match a with VUndefined | VNull => b | _ => a end.

(** ** Exceptions and the compiler-call log *)

(** What the handlers catch: an [Error] object; they read only its
    [message]. *)
Record exn : Type := Exn { message : jsstring }.

Inductive completion (A : Type) : Type :=
| Normal (a : A)
| Throw (e : exn).
Arguments Normal {A} a.
Arguments Throw {A} e.

(** A computation completes normally or abruptly and reports the markups
    it handed to the compiler, in call order. *)
Definition M (A : Type) : Type := (completion A * list value)%type.

Definition ret {A} (a : A) : M A := (Normal a, []).

Definition lift {A} (c : completion A) : M A := (c, []).

Definition bind {A B} (m : M A) (f : A -> M B) : M B :=
  match m with
  | (Normal a, calls) => let (r, calls') := f a in (r, calls ++ calls')
  | (Throw e, calls) => (Throw e, calls)
  end.

(** [try { m } catch (error) { h error }] *)
Definition try_catch {A} (m : M A) (h : exn -> M A) : M A :=
  match m with
  | (Normal a, calls) => (Normal a, calls)
  | (Throw e, calls) => let (r, calls') := h e in (r, calls ++ calls')
  end.

Declare Scope js_scope.
Delimit Scope js_scope with js.
Notation "x <- m ;; k" := (bind m (fun x => k))
  (at level 100, m at next level, right associativity) : js_scope.
Open Scope js_scope.

(** The completion and the compiler calls of a run. *)
Definition outcome {A} (m : M A) : completion A := fst m.
Definition compiler_calls {A} (m : M A) : list value := snd m.

(** ** Replies *)

(** [reply.code(status).send(payload)]; a handler that returns an object
    replies with status 200. *)
Record reply : Type := Reply { status : value; payload : value }.

Definition send (code : Z) (body : object) : reply :=
  {| status := VNum code; payload := VObj body |}.

(** What the compiler returns: [{ html, errors }]; each entry of [errors]
    is a diagnostic object. *)
Record compile_result : Type :=
  { html : value; errors : option (list object) }.

(** The error object the framework hands to the error handler. *)
Record error : Type :=
  { error_message : value; statusCode : value; code : value }.

Record request : Type :=
  { url : jsstring; method : jsstring; body : value }.

(** ** Route schemas *)

Inductive json_type : Type := TObject | TArray | TString | TNumber.

(** The schema keywords the two route schemas use. *)
Inductive schema : Type :=
| SType (type : json_type)
    (* { type } *)
| SObject (required : list string) (properties : list (string * schema))
    (* { type: 'object', required, properties } *)
| SArray (minItems : nat) (items : schema)
    (* { type: 'array', minItems, items } *)
| SOneOf (oneOf : list schema).
    (* { oneOf } *)

Definition renderSchema : schema :=
  SObject ["mjml"] [("mjml", SType TString)].

Definition batchRenderSchema : schema :=
  SObject ["items"]
    [("items",
       SArray 1
         (SOneOf
            [SObject ["id"; "mjml"]
               [("id", SOneOf [SType TString; SType TNumber]);
                ("mjml", SType TString)];
             SObject ["mjml"] [("mjml", SType TString)]]))].

Definition has_type (t : json_type) (v : value) : bool :=
  match t, v with
  | TObject, VObj _ => true
  | TArray, VArr _ => true
  | TString, VStr _ => true
  | TNumber, VNum _ => true
  | _, _ => false
  end.

Definition has_own (p : string) (o : object) : bool :=
  existsb (fun kv => String.eqb (fst kv) p) o.

(** Validity of a value under a schema as JSON Schema defines the
    keywords, without any coercion of the value. *)
Fixpoint valid (s : schema) (v : value) : bool :=
  match s with
  | SType t => has_type t v
  | SObject required properties =>
      match v with
      | VObj o =>
          forallb (fun p => has_own p o) required
          && forallb
               (fun ps => negb (has_own (fst ps) o)
                          || valid (snd ps) (lookup (fst ps) o))
               properties
      | _ => false
      end
  | SArray minItems items =>
      match v with
      | VArr l => (minItems <=? List.length l)%nat && forallb (valid items) l
      | _ => false
      end
  | SOneOf oneOf =>
      Nat.eqb (List.length (filter (fun alt => valid alt v) oneOf)) 1
  end.

(** ** Sizes *)




(** ** Counting results *)

(** [r.success === b] *)
Definition success_is (b : bool) (r : object) : bool :=
  match lookup "success" r with
  | VBool c => Bool.eqb c b
  | _ => false
  end.

(** The number of entries of [results] whose [success] is [b]. *)
Definition count_results (b : bool) (results : list object) : Z :=
  Z.of_nat (List.length (filter (success_is b) results)).

(** ** Sample collaborators

    Concrete stand-ins for the compiler, the engine and the validator, on
    which the handlers can be run. *)

(** A compiler that reports one diagnostic (and still emits HTML) for a
    document with an unknown tag, throws on an unclosed document, emits
    an empty string for an empty document, and otherwise emits a page. *)
Definition sample_mjml2html (mjml : value) : completion compile_result :=
  if strict_equals_string mjml (js "<mjml><mj-invalid/></mjml>") then
    Normal {| html := VStr (js "<!doctype html><html></html>");
              errors :=
                Some [[("line", VNum 1);
                       ("message", VStr (js "Element mj-invalid does not exist"));
                       ("tagName", VStr (js "mj-invalid"));
                       ("formattedMessage",
                         VStr (js "Line 1 (mj-invalid): Element mj-invalid does not exist"))]] |}
  else if strict_equals_string mjml (js "<mjml>") then
    Throw (Exn (js "Malformed MJML"))
  else if strict_equals_string mjml (js "<mjml/>") then
    Normal {| html := VStr []; errors := Some [] |}
  else
    Normal {| html := VStr (js "<!doctype html><html></html>");
              errors := Some [] |}.

Definition sample_TypeError (v : value) (p : string) : exn :=
  Exn (js "Cannot read properties of undefined").

Definition sample_ToNumber (v : value) : option Z := None.

(** The validator that reports a fixed message for every body that is not
    [valid] and leaves a valid body as it is. *)
Definition plain_validator (s : schema) (v : value) : jsstring + value :=
  if valid s v then inr v else inl (js "body does not match the schema").

(** The same compiler with another text in what it throws. *)
Definition sample_mjml2html_verbose (mjml : value)
  : completion compile_result :=
  match sample_mjml2html mjml with
  | Throw _ => Throw (Exn (js "ENOENT: no such file /srv/app/header.mjml"))
  | Normal res => Normal res
  end.

(** Two compilers that return the same results and throw on the same
    markups, whatever they throw. *)
Definition same_up_to_exceptions
    (c1 c2 : value -> completion compile_result) : Prop :=
  forall m,
    match c1 m, c2 m with
    | Normal r1, Normal r2 => r1 = r2
    | Throw _, Throw _ => True
    | _, _ => False
    end.

(** The container sets [NODE_ENV=production]. *)
Definition production : value := VStr (js "production").

(** A batch of three: a document that compiles, one on which the compiler
    throws, one with an unknown tag. *)
Definition sample_items : list value :=
  [VObj [("id", VStr (js "a")); ("mjml", VStr (js "<mjml></mjml>"))];
   VObj [("mjml", VStr (js "<mjml>"))];
   VObj [("id", VNum 7); ("mjml", VStr (js "<mjml><mj-invalid/></mjml>"))]].

Definition sample_batch : value := VObj [("items", VArr sample_items)].

Definition sample_results : list object :=
  [[("id", VStr (js "a"));
    ("success", VBool true);
    ("html", VStr (js "<!doctype html><html></html>"))];
   [("id", VNum 1);
    ("success", VBool false);
    ("error", VStr (js "Malformed MJML"));
    ("code", VStr (js "PROCESSING_ERROR"))];
   [("id", VNum 7);
    ("success", VBool false);
    ("error", VStr (js "MJML compilation failed"));
    ("code", VStr (js "COMPILATION_ERROR"));
    ("errors",
      VArr [VObj [("line", VNum 1);
                  ("message", VStr (js "Element mj-invalid does not exist"));
                  ("tagName", VStr (js "mj-invalid"))]])]].

Definition sample_calls : list value :=
  [VStr (js "<mjml></mjml>");
   VStr (js "<mjml>");
   VStr (js "<mjml><mj-invalid/></mjml>")].

(** A POST on [/render-batch] with 101 items, none of which has the
    required [mjml]. *)
Definition over_limit_request : request :=
  {| url := js "/render-batch";
     method := js "POST";
     body := VObj [("items", VArr (repeat (VObj []) 101))] |}.

(** A POST on [/render-batch] with 101 items that have an [mjml] only. *)
Definition over_limit_valid_request : request :=
  {| url := js "/render-batch";
     method := js "POST";
     body :=
       VObj [("items",
               VArr (repeat (VObj [("mjml", VStr (js "<mjml></mjml>"))])
                       101))] |}.

(** A batch whose second item is [null]. *)
Definition sample_batch_with_null : value :=
  VObj [("items",
          VArr [VObj [("mjml", VStr (js "<mjml></mjml>"))];
                VNull;
                VObj [("mjml", VStr (js "<mjml></mjml>"))]])].

Section Server.

(** The compiler with the options the server passes
    ([validationLevel: 'soft'], [filePath: '.']), as a function of the
    markup: it returns a result or throws. *)
Variable mjml2html : value -> completion compile_result.

(** [process.env.NODE_ENV]: a string, or [undefined] when unset. *)
Variable NODE_ENV : value.

(** The engine's [TypeError] for reading property [p] of [undefined] or
    [null]; the text of its message is the engine's. *)
Variable TypeError : value -> string -> exn.

(** ECMAScript's [ToNumber] on an operand that is a string, an array or
    an object ([None] is NaN). *)
Variable ToNumber : value -> option Z.

(** [v.p] for the properties this program reads ([mjml], [items], [id],
    [length]): a [TypeError] on [undefined] and [null], the own
    property of an object, the length of a string or an array, and
    [undefined] otherwise. *)
Definition get (v : value) (p : string) : completion value :=
  match v with
  | VUndefined | VNull => Throw (TypeError v p)
  | VObj props => Normal (lookup p props)
  | VArr elems =>
      Normal (if String.eqb p "length" then VNum (Z.of_nat (List.length elems))
              else VUndefined)
  | VStr s =>
      Normal (if String.eqb p "length" then VNum (Z.of_nat (List.length s))
              else VUndefined)
  | VBool _ | VNum _ => Normal VUndefined
  end.

(** [v > n] for a number literal [n]. *)
Definition js_gt (v : value) (n : Z) : bool :=
  match v with
  | VNum m => n <? m
  | VUndefined => false
  | VNull => n <? 0
  | VBool b => n <? (if b then 1 else 0)
  | VStr _ | VArr _ | VObj _ =>
      match ToNumber v with Some m => n <? m | None => false end
  end.

Definition call_mjml2html (mjml : value) : M compile_result :=
  (mjml2html mjml, [mjml]).

(** [errors && errors.length > 0] *)
Definition has_errors (es : option (list object)) : bool :=
  match es with
  | Some (_ :: _) => true
  | _ => false
  end.

(** [errors.map((e) => ({ line: e.line, message: e.message,
    tagName: e.tagName }))] *)
Definition diagnostic (e : object) : value :=
  VObj [("line", lookup "line" e);
        ("message", lookup "message" e);
        ("tagName", lookup "tagName" e)].

Definition diagnostics (es : option (list object)) : value :=
  VArr (map diagnostic (match es with Some l => l | None => [] end)).

(** The [500] envelope of both outer [catch] blocks. *)
Definition internal_error (e : exn) : reply :=
  send 500
    [("error", VStr (js "Internal server error"));
     ("code", VStr (js "INTERNAL_ERROR"));
     ("message",
       if strict_equals_string NODE_ENV (js "development")
       then VStr (message e) else VUndefined)].

(** *** POST /render *)

Definition render_try (body : value) : M reply :=
  mjml <- lift (get body "mjml") ;;
  if negb (truthy mjml) || negb (typeof_string mjml) then
    ret (send 400
           [("error",
              VStr (js "MJML content is required and must be a string"));
            ("code", VStr (js "INVALID_INPUT"))])
  else
    len <- lift (get mjml "length") ;;
    if js_gt len (1024 * 1024) then
      ret (send 413
             [("error", VStr (js "MJML content is too large (max 1MB)"));
              ("code", VStr (js "CONTENT_TOO_LARGE"))])
    else
      r <- call_mjml2html mjml ;;
      if has_errors (errors r) then
        ret (send 400
               [("error", VStr (js "MJML compilation failed"));
                ("code", VStr (js "COMPILATION_ERROR"));
                ("errors", diagnostics (errors r))])
      else if negb (truthy (html r)) || negb (typeof_string (html r)) then
        ret (send 500
               [("error", VStr (js "Failed to generate HTML"));
                ("code", VStr (js "NO_OUTPUT"))])
      else
        ret (send 200 [("html", html r)]).

Definition render (body : value) : M reply :=
  try_catch (render_try body) (fun e => ret (internal_error e)).

(** *** POST /render-batch *)

(** [items.map((item, index) => ...)]: the callback runs on the items
    in ascending index order; an exception that leaves the callback
    leaves the [map]. *)
Fixpoint map_from {A} (f : value -> nat -> M A) (index : nat)
    (l : list value) : M (list A) :=
  match l with
  | [] => ret []
  | item :: l' =>
      r <- f item index ;;
      rs <- map_from f (S index) l' ;;
      ret (r :: rs)
  end.

Definition array_map {A} (f : value -> nat -> M A) (l : list value)
  : M (list A) :=
  map_from f 0%nat l.

(** [item.id !== undefined ? item.id : index] *)
Definition resolved_id (item_id : value) (index : nat) : value :=
  if is_defined item_id then item_id else VNum (Z.of_nat index).

(** The [try] block of the callback. *)
Definition render_item_try (item : value) (index : nat) : M object :=
  item_id <- lift (get item "id") ;;
  let id := resolved_id item_id index in
  mjml <- lift (get item "mjml") ;;
  len <- lift (get mjml "length") ;;
  if js_gt len (1024 * 1024) then
    ret [("id", id);
         ("success", VBool false);
         ("error", VStr (js "MJML content is too large (max 1MB)"));
         ("code", VStr (js "CONTENT_TOO_LARGE"))]
  else
    r <- call_mjml2html mjml ;;
    if has_errors (errors r) then
      ret [("id", id);
           ("success", VBool false);
           ("error", VStr (js "MJML compilation failed"));
           ("code", VStr (js "COMPILATION_ERROR"));
           ("errors", diagnostics (errors r))]
    else
      ret [("id", id);
           ("success", VBool true);
           ("html", html r)].

(** The [catch] block of the callback. *)
Definition render_item_catch (item : value) (index : nat) (e : exn)
  : M object :=
  item_id <- lift (get item "id") ;;
  ret [("id", nullish_or item_id (VNum (Z.of_nat index)));
       ("success", VBool false);
       ("error", VStr (message e));
       ("code", VStr (js "PROCESSING_ERROR"))].

Definition render_item (item : value) (index : nat) : M object :=
  try_catch (render_item_try item index) (render_item_catch item index).

(** The ways the processing of one item fails, with the code the entry
    reports: the markup is over the size limit, the compiler returns
    diagnostics, or the [try] block throws. *)
Inductive item_fails (item : value) (index : nat) : jsstring -> Prop :=
| fails_too_large : forall m len,
    get item "mjml" = Normal m ->
    get m "length" = Normal len ->
    js_gt len (1024 * 1024) = true ->
    item_fails item index (js "CONTENT_TOO_LARGE")
| fails_compilation : forall m len res,
    get item "mjml" = Normal m ->
    get m "length" = Normal len ->
    js_gt len (1024 * 1024) = false ->
    mjml2html m = Normal res ->
    has_errors (errors res) = true ->
    item_fails item index (js "COMPILATION_ERROR")
| fails_exception : forall e calls,
    render_item_try item index = (Throw e, calls) ->
    item_fails item index (js "PROCESSING_ERROR").

(** [results.filter((r) => r.success).length] *)
Definition successCount (results : list object) : Z :=
  Z.of_nat (List.length (filter (fun r => truthy (lookup "success" r)) results)).

Definition failureCount (results : list object) : Z :=
  Z.of_nat (List.length results) - successCount results.

(** [return { summary: { total, success, failed }, results }] *)
Definition batch_reply (results : list object) : reply :=
  send 200
    [("summary",
       VObj [("total", VNum (Z.of_nat (List.length results)));
             ("success", VNum (successCount results));
             ("failed", VNum (failureCount results))]);
     ("results", VArr (map VObj results))].

Definition invalid_items : reply :=
  send 400
    [("error",
       VStr (js "items array is required and must contain at least 1 item"));
     ("code", VStr (js "INVALID_INPUT"))].

Definition render_batch_try (body : value) : M reply :=
  items <- lift (get body "items") ;;
  match items with
  | VArr l =>
      if (List.length l =? 0)%nat then ret invalid_items
      else
        results <- array_map render_item l ;;
        ret (batch_reply results)
  | _ => ret invalid_items   (* !Array.isArray(items) *)
  end.

Definition render_batch (body : value) : M reply :=
  try_catch (render_batch_try body) (fun e => ret (internal_error e)).

(** *** The batch callback against the single-item handler *)

(** A reply of [/render] embedded as the entry of a batch item:
    [{ id, success, ...payload }], a success when the status is 200. *)
Definition as_item_result (id : value) (r : reply) : object :=
  ("id", id)
  :: ("success", VBool (strict_equals_number (status r) 200))
  :: match payload r with VObj props => props | _ => [] end.

(** The entry of a batch item is the reply of [/render] for the item's
    markup, embedded as an entry, and both make the same compiler
    calls. *)
Definition item_agrees_with_render (item : value) (index : nat) : Prop :=
  forall w m,
    get item "id" = Normal w ->
    get item "mjml" = Normal m ->
    exists r calls,
      render (VObj [("mjml", m)]) = (Normal r, calls) /\
      render_item item index
        = (Normal (as_item_result (resolved_id w index) r), calls).

(** *** The preHandler hook *)

Definition too_many_items : reply :=
  send 413
    [("error", VStr (js "Too many items (max 100 at once)"));
     ("code", VStr (js "TOO_MANY_ITEMS"))].

(** [None]: the hook returns without replying and the request goes on. *)
Definition preHandler (req : request) : M (option reply) :=
  if jsstring_eqb (url req) (js "/render-batch")
     && jsstring_eqb (method req) (js "POST")
  then
    try_catch
      (if negb (truthy (body req)) then ret None
       else
         items <- lift (get (body req) "items") ;;
         if negb (truthy items) || negb (isArray items) then ret None
         else
           len <- lift (get items "length") ;;
           if js_gt len 100 then ret (Some too_many_items)
           else ret None)
      (fun _ => ret None)
  else ret None.

(** *** The error handler *)

Definition errorHandler (err : error) : reply :=
  if strict_equals_number (statusCode err) 400
     && strict_equals_string (code err) (js "FST_ERR_VALIDATION")
  then
    send 400
      [("error", js_or (error_message err) (VStr (js "Validation error")));
       ("code", VStr (js "INVALID_INPUT"))]
  else if strict_equals_number (statusCode err) 413 then
    send 413
      [("error", js_or (error_message err) (VStr (js "Payload too large")));
       ("code", VStr (js "CONTENT_TOO_LARGE"))]
  else
    {| status := js_or (statusCode err) (VNum 500);
       payload :=
         VObj [("error",
                 js_or (error_message err)
                   (VStr (js "Internal server error")));
               ("code", js_or (code err) (VStr (js "INTERNAL_ERROR")));
               ("statusCode", js_or (statusCode err) (VNum 500))] |}.

(** *** The life of a request to a POST route *)

(** The framework's compiled validator for a route schema: the message
    of the violation it reports, or the body as it leaves it (the
    framework's validator may coerce values of the body to the types
    the schema names). *)
Variable validateSchema : schema -> value -> jsstring + value.

(** The error the framework raises for a body its validator rejects. *)
Definition validation_error (msg : jsstring) : error :=
  {| error_message := VStr msg;
     statusCode := VNum 400;
     code := VStr (js "FST_ERR_VALIDATION") |}.

(** An exception that leaves a hook or a handler. *)
Definition thrown_error (e : exn) : error :=
  {| error_message := VStr (message e);
     statusCode := VUndefined;
     code := VUndefined |}.

(** The framework validates the body against the route's schema, then
    runs the [preHandler] hooks, then the route's handler; a validation
    error, or an exception out of a hook or handler, goes to the error
    handler. *)
Definition route (sch : schema) (handler : value -> M reply)
    (req : request) : M reply :=
  match validateSchema sch (body req) with
  | inl msg => ret (errorHandler (validation_error msg))
  | inr validated =>
      try_catch
        (hooked <- preHandler {| url := url req;
                                 method := method req;
                                 body := validated |} ;;
         match hooked with
         | Some r => ret r
         | None => handler validated
         end)
        (fun e => ret (errorHandler (thrown_error e)))
  end.

Definition post_render : request -> M reply := route renderSchema render.

Definition post_render_batch : request -> M reply :=
  route batchRenderSchema render_batch.

(** *** The replies of [/render], by name *)

Definition invalid_input : reply :=
  send 400
    [("error", VStr (js "MJML content is required and must be a string"));
     ("code", VStr (js "INVALID_INPUT"))].

Definition content_too_large : reply :=
  send 413
    [("error", VStr (js "MJML content is too large (max 1MB)"));
     ("code", VStr (js "CONTENT_TOO_LARGE"))].

Definition compilation_error (es : option (list object)) : reply :=
  send 400
    [("error", VStr (js "MJML compilation failed"));
     ("code", VStr (js "COMPILATION_ERROR"));
     ("errors", diagnostics es)].

Definition no_output : reply :=
  send 500
    [("error", VStr (js "Failed to generate HTML"));
     ("code", VStr (js "NO_OUTPUT"))].

(** The body carries a non-empty markup [s] within the size limit, for
    which the compiler returns [res] with no diagnostics. *)
Definition compiles_without_diagnostics (body : value) (s : jsstring)
    (res : compile_result) : Prop :=
  get body "mjml" = Normal (VStr s) /\
  s <> [] /\
  Z.of_nat (List.length s) <= 1024 * 1024 /\
  mjml2html (VStr s) = Normal res /\
  has_errors (errors res) = false.

(** The markup the batch callback hands to the compiler for an item, if
    any: the item's [mjml], unless reading it or its length throws or the
    length is over the limit. *)
Definition item_calls (item : value) : list value :=
  match get item "mjml" with
  | Normal mjml =>
      match get mjml "length" with
      | Normal len => if js_gt len (1024 * 1024) then [] else [mjml]
      | Throw _ => []
      end
  | Throw _ => []
  end.


(** * Properties *)

Ltac run := unfold bind, ret, lift, try_catch, outcome, compiler_calls; simpl.

(** One branching point of a handler. *)
Ltac step :=
  match goal with
  | |- context [match get ?v ?p with _ => _ end] =>
      destruct (get v p) eqn:?
  | |- context [if js_gt ?a ?b then _ else _] =>
      destruct (js_gt a b) eqn:?
  | |- context [match mjml2html ?m with _ => _ end] =>
      destruct (mjml2html m) eqn:?
  | |- context [if has_errors ?e then _ else _] =>
      destruct (has_errors e) eqn:?
  end; simpl.

Lemma jsstring_eqb_refl : forall s, jsstring_eqb s s = true.
Proof.
  induction s as [|a s IH]; simpl; [reflexivity|].
  now rewrite N.eqb_refl, IH.
Qed.

Lemma jsstring_eqb_eq : forall s t, jsstring_eqb s t = true -> s = t.
Proof.
  induction s as [|a s IH]; destruct t as [|b t]; simpl; try discriminate; auto.
  intros H. apply andb_true_iff in H as [Hab Hst].
  apply N.eqb_eq in Hab. subst b. f_equal. auto.
Qed.

Lemma get_not_nullish : forall v p,
  nullish v = false -> exists w, get v p = Normal w.
Proof.
  intros v p H. destruct v; simpl in *; try discriminate; eauto.
Qed.

(** ** The array callback and [map] *)

Lemma render_item_catch_normal : forall item index e,
  nullish item = false ->
  exists w,
    get item "id" = Normal w /\
    render_item_catch item index e =
      (Normal [("id", nullish_or w (VNum (Z.of_nat index)));
               ("success", VBool false);
               ("error", VStr (message e));
               ("code", VStr (js "PROCESSING_ERROR"))], []).
Proof.
  intros item index e H.
  destruct (get_not_nullish item "id" H) as [w Hw].
  exists w. split; [assumption|].
  unfold render_item_catch. rewrite Hw. reflexivity.
Qed.

(** No exception leaves the callback on an item that is not [undefined]
    or [null]. *)
Lemma render_item_normal : forall item index,
  nullish item = false ->
  exists r calls, render_item item index = (Normal r, calls).
Proof.
  intros item index H. unfold render_item, try_catch.
  destruct (render_item_try item index) as [[r|e] calls]; [eauto|].
  destruct (render_item_catch_normal item index e H) as [w [_ Hc]].
  rewrite Hc. eauto.
Qed.

(** Every entry the callback returns has a boolean [success]. *)
Lemma render_item_success_bool : forall item index r calls,
  render_item item index = (Normal r, calls) ->
  exists b, lookup "success" r = VBool b.
Proof.
  intros item index r calls. unfold render_item, try_catch.
  destruct (render_item_try item index) as [[r0|e] c0] eqn:Etry.
  - intros H. injection H as <- <-. revert Etry.
    unfold render_item_try, call_mjml2html. run.
    repeat (step; try discriminate);
      intros E; injection E as <- <-; eexists; reflexivity.
  - unfold render_item_catch. run.
    step; [|discriminate].
    intros H. injection H as <- <-. eexists; reflexivity.
Qed.

Lemma map_from_spec : forall A (f : value -> nat -> M A) l index rs calls,
  map_from f index l = (Normal rs, calls) ->
  List.length rs = List.length l /\
  forall k item, nth_error l k = Some item ->
    exists r c, f item (index + k)%nat = (Normal r, c) /\
                nth_error rs k = Some r.
Proof.
  intros A f l. induction l as [|x l IH]; intros index rs calls; simpl.
  - unfold ret. intros H. injection H as <- <-. split; [reflexivity|].
    intros [|k] item; discriminate.
  - unfold bind at 1.
    destruct (f x index) as [[r|e] c] eqn:Ef; [|discriminate].
    unfold bind, ret.
    destruct (map_from f (S index) l) as [[rs'|e] c'] eqn:Em; [|discriminate].
    simpl. intros H. injection H as <- <-.
    destruct (IH _ _ _ Em) as [Hlen Hnth].
    split; [simpl; congruence|].
    intros [|k] item Hk; simpl in *.
    + injection Hk as <-. rewrite Nat.add_0_r. eauto.
    + rewrite Nat.add_succ_r. exact (Hnth k item Hk).
Qed.

Lemma map_from_normal : forall A (f : value -> nat -> M A) l index,
  (forall item j, In item l -> exists r c, f item j = (Normal r, c)) ->
  exists rs calls, map_from f index l = (Normal rs, calls).
Proof.
  intros A f l. induction l as [|x l IH]; intros index Hf; simpl.
  - unfold ret. eauto.
  - destruct (Hf x index (or_introl eq_refl)) as [r [c Ef]].
    destruct (IH (S index) (fun item j Hin => Hf item j (or_intror Hin)))
      as [rs [c' Em]].
    unfold bind, ret. rewrite Ef, Em. simpl. eauto.
Qed.

(** ** The batch handler *)

Lemma render_batch_run : forall body items results calls,
  get body "items" = Normal (VArr items) ->
  items <> [] ->
  array_map render_item items = (Normal results, calls) ->
  render_batch body = (Normal (batch_reply results), calls).
Proof.
  intros body items results calls Hget Hne Hmap.
  unfold render_batch, render_batch_try. rewrite Hget.
  destruct items as [|x l]; [congruence|].
  unfold bind, lift, try_catch, ret. cbv beta iota zeta.
  change (List.length (x :: l) =? 0)%nat with false. cbv iota.
  rewrite Hmap. simpl. now rewrite app_nil_r.
Qed.

Lemma render_batch_inv : forall body r calls,
  render_batch body = (Normal r, calls) ->
  status r = VNum 200 ->
  exists items results,
    get body "items" = Normal (VArr items) /\
    items <> [] /\
    r = batch_reply results /\
    array_map render_item items = (Normal results, calls).
Proof.
  intros body r calls. unfold render_batch, render_batch_try.
  destruct (get body "items") as [v|e] eqn:Hget.
  - destruct v as [| | | | |[|x l]|];
      try (run; intros H; injection H as <- <-; discriminate).
    unfold bind, lift, try_catch, ret. cbv beta iota zeta.
    change (List.length (x :: l) =? 0)%nat with false. cbv iota.
    destruct (array_map render_item (x :: l)) as [[results|e] c] eqn:Hmap;
      simpl.
    + rewrite app_nil_r. intros H _. injection H as <- <-.
      exists (x :: l), results. repeat split; [discriminate|assumption].
    + intros H. injection H as <- <-. discriminate.
  - run. intros H. injection H as <- <-. discriminate.
Qed.

Lemma map_VObj_injective : forall l l' : list object,
  map VObj l = map VObj l' -> l = l'.
Proof.
  induction l as [|a l IH]; destruct l' as [|b l']; simpl;
    try discriminate; auto.
  intros H. injection H as -> H. f_equal. auto.
Qed.

Lemma batch_reply_injective : forall results results',
  batch_reply results = batch_reply results' -> results = results'.
Proof.
  unfold batch_reply, send. intros results results' H.
  injection H as _ _ _ H. now apply map_VObj_injective.
Qed.

(** Counting entries by their [success] flag. *)
Lemma filter_success_lengths : forall results : list object,
  (forall r, In r results -> exists b, lookup "success" r = VBool b) ->
  (List.length (filter (fun r => truthy (lookup "success" r)) results)
     = List.length (filter (success_is true) results) /\
   List.length (filter (success_is true) results)
     + List.length (filter (success_is false) results)
     = List.length results)%nat.
Proof.
  induction results as [|r results IH]; intros Hb.
  - split; reflexivity.
  - destruct (Hb r (or_introl eq_refl)) as [b Hr].
    destruct (IH (fun r' Hin => Hb r' (or_intror Hin))) as [Hs Hsum].
    assert (Ht : truthy (lookup "success" r) = b)
      by (rewrite Hr; reflexivity).
    assert (H1 : success_is true r = b)
      by (unfold success_is; rewrite Hr; destruct b; reflexivity).
    assert (H0 : success_is false r = negb b)
      by (unfold success_is; rewrite Hr; destruct b; reflexivity).
    cbn [filter]. rewrite Ht, H1, H0.
    destruct b; cbn [negb List.length]; split; lia.
Qed.

Lemma success_counts : forall results : list object,
  (forall r, In r results -> exists b, lookup "success" r = VBool b) ->
  successCount results = count_results true results /\
  failureCount results = count_results false results /\
  count_results true results + count_results false results
    = Z.of_nat (List.length results).
Proof.
  intros results Hb. unfold failureCount, successCount, count_results.
  destruct (filter_success_lengths results Hb) as [Hs Hsum].
  rewrite Hs. repeat split; lia.
Qed.

Lemma array_map_spec : forall items results calls,
  array_map render_item items = (Normal results, calls) ->
  List.length results = List.length items /\
  forall k item, nth_error items k = Some item ->
    exists r c, render_item item k = (Normal r, c) /\
                nth_error results k = Some r.
Proof.
  unfold array_map. intros items results calls H.
  exact (map_from_spec _ render_item items 0%nat results calls H).
Qed.

Lemma array_map_success_bool : forall items results calls,
  array_map render_item items = (Normal results, calls) ->
  forall r, In r results -> exists b, lookup "success" r = VBool b.
Proof.
  intros items results calls H r Hin.
  destruct (array_map_spec _ _ _ H) as [Hlen Hnth].
  destruct (In_nth_error _ _ Hin) as [k Hk].
  assert (Hlt : (k < List.length items)%nat).
  { rewrite <- Hlen. apply nth_error_Some. congruence. }
  destruct (nth_error items k) as [item|] eqn:Hitem.
  - destruct (Hnth k item Hitem) as [r' [c [Hr' Hk']]].
    rewrite Hk in Hk'. injection Hk' as ->.
    eapply render_item_success_bool; eassumption.
  - apply nth_error_None in Hitem. lia.
Qed.

(** *** The entries the callback returns, case by case *)

Lemma render_item_too_large : forall item index w m len,
  get item "id" = Normal w ->
  get item "mjml" = Normal m ->
  get m "length" = Normal len ->
  js_gt len (1024 * 1024) = true ->
  render_item item index =
    (Normal [("id", resolved_id w index);
             ("success", VBool false);
             ("error", VStr (js "MJML content is too large (max 1MB)"));
             ("code", VStr (js "CONTENT_TOO_LARGE"))], []).
Proof.
  intros item index w m len Hid Hm Hlen Hgt.
  unfold render_item, render_item_try. rewrite Hid, Hm. run. rewrite Hlen. simpl.
  change (js_gt len 1048576) with (js_gt len (1024 * 1024)).
  rewrite Hgt. reflexivity.
Qed.

Lemma render_item_compilation_error : forall item index w m len res,
  get item "id" = Normal w ->
  get item "mjml" = Normal m ->
  get m "length" = Normal len ->
  js_gt len (1024 * 1024) = false ->
  mjml2html m = Normal res ->
  has_errors (errors res) = true ->
  render_item item index =
    (Normal [("id", resolved_id w index);
             ("success", VBool false);
             ("error", VStr (js "MJML compilation failed"));
             ("code", VStr (js "COMPILATION_ERROR"));
             ("errors", diagnostics (errors res))], [m]).
Proof.
  intros item index w m len res Hid Hm Hlen Hgt Hres Herr.
  unfold render_item, render_item_try, call_mjml2html.
  rewrite Hid, Hm. run. rewrite Hlen. simpl.
  change (js_gt len 1048576) with (js_gt len (1024 * 1024)).
  rewrite Hgt, Hres. simpl. rewrite Herr. reflexivity.
Qed.

Lemma render_item_success : forall item index w m len res,
  get item "id" = Normal w ->
  get item "mjml" = Normal m ->
  get m "length" = Normal len ->
  js_gt len (1024 * 1024) = false ->
  mjml2html m = Normal res ->
  has_errors (errors res) = false ->
  render_item item index =
    (Normal [("id", resolved_id w index);
             ("success", VBool true);
             ("html", html res)], [m]).
Proof.
  intros item index w m len res Hid Hm Hlen Hgt Hres Herr.
  unfold render_item, render_item_try, call_mjml2html.
  rewrite Hid, Hm. run. rewrite Hlen. simpl.
  change (js_gt len 1048576) with (js_gt len (1024 * 1024)).
  rewrite Hgt, Hres. simpl. rewrite Herr. reflexivity.
Qed.

Lemma render_item_caught : forall item index e calls w,
  render_item_try item index = (Throw e, calls) ->
  get item "id" = Normal w ->
  render_item item index =
    (Normal [("id", nullish_or w (VNum (Z.of_nat index)));
             ("success", VBool false);
             ("error", VStr (message e));
             ("code", VStr (js "PROCESSING_ERROR"))], calls).
Proof.
  intros item index e calls w Htry Hid.
  unfold render_item, try_catch. rewrite Htry.
  unfold render_item_catch. rewrite Hid. run. now rewrite app_nil_r.
Qed.

Lemma render_item_compiler_throws : forall item index w m len e,
  get item "id" = Normal w ->
  get item "mjml" = Normal m ->
  get m "length" = Normal len ->
  js_gt len (1024 * 1024) = false ->
  mjml2html m = Throw e ->
  render_item_try item index = (Throw e, [m]).
Proof.
  intros item index w m len e Hid Hm Hlen Hgt Hres.
  unfold render_item_try, call_mjml2html.
  rewrite Hid, Hm. run. rewrite Hlen. simpl.
  change (js_gt len 1048576) with (js_gt len (1024 * 1024)).
  rewrite Hgt, Hres. reflexivity.
Qed.


(** The two blocks of the callback resolve a [null] id differently: the
    [try] block echoes it ([!== undefined]), the [catch] block replaces it
    by the index ([??]). *)
Lemma null_id_resolution : forall index,
  resolved_id VNull index = VNull /\
  nullish_or VNull (VNum (Z.of_nat index)) = VNum (Z.of_nat index).
Proof. intros index. split; reflexivity. Qed.

(** ** Batch isolation, summary and identity *)

(** C1. Batch isolation.  For a batch of [N >= 1] items (none of them
    [undefined] or [null]; the bound [N <= 100] is not needed), the
    handler replies 200 with exactly [N] results in input order; entry
    [k] is what the callback returns for item [k] at index [k] alone,
    whatever the other items are; an item whose processing fails or
    throws yields an entry with [success: false] and that failure's
    code (with the exception's message when it threw); no exception of
    an item leaves the callback. *)
Theorem batch_isolation : forall body items,
  get body "items" = Normal (VArr items) ->
  (1 <= List.length items)%nat ->
  Forall (fun item => nullish item = false) items ->
  exists results calls,
    render_batch body = (Normal (batch_reply results), calls) /\
    List.length results = List.length items /\
    (forall k item, nth_error items k = Some item ->
       exists r c,
         nth_error results k = Some r /\
         render_item item k = (Normal r, c) /\
         (forall failure_code, item_fails item k failure_code ->
            lookup "success" r = VBool false /\
            lookup "code" r = VStr failure_code) /\
         (forall e c', render_item_try item k = (Throw e, c') ->
            lookup "error" r = VStr (message e))) /\
    (forall body' items' results' calls',
       get body' "items" = Normal (VArr items') ->
       render_batch body' = (Normal (batch_reply results'), calls') ->
       forall j item,
         nth_error items j = Some item ->
         nth_error items' j = Some item ->
         nth_error results' j = nth_error results j).
Proof.
  intros body items Hget Hlen Hall.
  assert (Hne : items <> []) by (destruct items; simpl in *; [lia|discriminate]).
  rewrite Forall_forall in Hall.
  destruct (map_from_normal _ render_item items 0%nat
              (fun item j Hin => render_item_normal item j (Hall item Hin)))
    as [results [calls Hmap]].
  fold (array_map render_item items) in Hmap.
  exists results, calls.
  destruct (array_map_spec _ _ _ Hmap) as [Hlens Hnth].
  split; [exact (render_batch_run _ _ _ _ Hget Hne Hmap)|].
  split; [assumption|]. split.
  - intros k item Hk. destruct (Hnth k item Hk) as [r [c [Hr Hres]]].
    exists r, c. split; [assumption|]. split; [assumption|].
    assert (Hnn : nullish item = false)
      by (apply Hall; eapply nth_error_In; eassumption).
    destruct (get_not_nullish item "id" Hnn) as [w Hw].
    split.
    + intros failure_code Hf. destruct Hf as [m len Hm Hl Hgt
                                               |m len res Hm Hl Hgt Hc He
                                               |e c' Htry].
      * rewrite (render_item_too_large _ k _ _ _ Hw Hm Hl Hgt) in Hr.
        injection Hr as <- _. split; reflexivity.
      * rewrite (render_item_compilation_error _ k _ _ _ _ Hw Hm Hl Hgt Hc He)
          in Hr.
        injection Hr as <- _. split; reflexivity.
      * rewrite (render_item_caught _ _ _ _ _ Htry Hw) in Hr.
        injection Hr as <- _. split; reflexivity.
    + intros e c' Htry.
      rewrite (render_item_caught _ _ _ _ _ Htry Hw) in Hr.
      injection Hr as <- _. reflexivity.
  - intros body' items' results' calls' Hget' Hrun' j item Hj Hj'.
    destruct (render_batch_inv _ _ _ Hrun' eq_refl)
      as [items'' [results'' [Hget'' [_ [Hrep Hmap']]]]].
    rewrite Hget' in Hget''. injection Hget'' as <-.
    apply batch_reply_injective in Hrep. subst results''.
    destruct (array_map_spec _ _ _ Hmap') as [_ Hnth'].
    destruct (Hnth j item Hj) as [r [c [Hr Hres]]].
    destruct (Hnth' j item Hj') as [r' [c' [Hr' Hres']]].
    rewrite Hr in Hr'. injection Hr' as <- _. congruence.
Qed.

(** C3. Batch summary invariant.  In every 200 reply of the batch
    handler, [summary.total] is the length of the submitted [items],
    [summary.success] the number of results with [success === true],
    [summary.failed] the number with [success === false], and
    [success + failed = total]. *)
Theorem batch_summary_invariant : forall body r calls,
  render_batch body = (Normal r, calls) ->
  status r = VNum 200 ->
  exists items results,
    get body "items" = Normal (VArr items) /\
    payload r =
      VObj [("summary",
              VObj [("total", VNum (Z.of_nat (List.length items)));
                    ("success", VNum (count_results true results));
                    ("failed", VNum (count_results false results))]);
            ("results", VArr (map VObj results))] /\
    count_results true results + count_results false results
      = Z.of_nat (List.length items).
Proof.
  intros body r calls Hrun Hstatus.
  destruct (render_batch_inv _ _ _ Hrun Hstatus)
    as [items [results [Hget [_ [-> Hmap]]]]].
  exists items, results.
  destruct (array_map_spec _ _ _ Hmap) as [Hlen _].
  destruct (success_counts results (array_map_success_bool _ _ _ Hmap))
    as [Hs [Hf Hsum]].
  split; [assumption|]. split.
  - unfold batch_reply, send. simpl. now rewrite Hs, Hf, Hlen.
  - now rewrite <- Hlen.
Qed.


(** ** The single-item handler *)

Lemma render_too_large : forall body s,
  get body "mjml" = Normal (VStr s) ->
  1024 * 1024 < Z.of_nat (List.length s) ->
  render body =
    (Normal (send 413
               [("error", VStr (js "MJML content is too large (max 1MB)"));
                ("code", VStr (js "CONTENT_TOO_LARGE"))]), []).
Proof.
  intros body s Hget Hlen. unfold render, render_try. rewrite Hget.
  destruct s as [|u s]; [simpl in Hlen; lia|].
  run. destruct (Z.ltb_spec 1048576 (Z.pos (Pos.of_succ_nat (List.length s))));
    [reflexivity|].
  change (List.length (u :: s)) with (S (List.length s)) in Hlen. lia.
Qed.


(** C5. Compilation errors.  When a run of the [/render] handler hands
    the markup to the compiler and the compiler returns a non-empty list
    of diagnostics, the reply is 400 with code [COMPILATION_ERROR] and an
    [errors] array with one entry per diagnostic, in order, each made of
    the diagnostic's [line], [message] and [tagName]; the payload has no
    [html], whatever HTML the compiler produced. *)
Theorem render_compilation_error : forall body m res d ds,
  get body "mjml" = Normal m ->
  In m (compiler_calls (render body)) ->
  mjml2html m = Normal res ->
  errors res = Some (d :: ds) ->
  exists entries,
    render body =
      (Normal (send 400
                 [("error", VStr (js "MJML compilation failed"));
                  ("code", VStr (js "COMPILATION_ERROR"));
                  ("errors", VArr entries)]), [m]) /\
    List.length entries = List.length (d :: ds) /\
    (forall i e, nth_error (d :: ds) i = Some e ->
       nth_error entries i =
         Some (VObj [("line", lookup "line" e);
                     ("message", lookup "message" e);
                     ("tagName", lookup "tagName" e)])) /\
    (forall r, outcome (render body) = Normal r ->
       get (payload r) "html" = Normal VUndefined).
Proof.
  intros body m res d ds Hget Hin Hres Herr.
  exists (map diagnostic (d :: ds)).
  revert Hin. unfold render, render_try, call_mjml2html. rewrite Hget. run.
  destruct (negb (truthy m) || negb (typeof_string m)); simpl;
    [intros []|].
  destruct (get m "length") as [len|e]; simpl; [|intros []].
  destruct (js_gt len _); simpl; [intros []|].
  rewrite Hres. simpl. rewrite Herr. simpl. intros _.
  split; [reflexivity|]. split; [now rewrite length_map|]. split.
  - intros i e Hi.
    change (diagnostic d :: map diagnostic ds)
      with (map diagnostic (d :: ds)).
    rewrite nth_error_map, Hi. reflexivity.
  - intros r Hr. injection Hr as <-. reflexivity.
Qed.


(** ** Error envelopes *)

(** C8. Error normalization.  The framework's validation error (status
    400, code [FST_ERR_VALIDATION]) is answered with status 400 and code
    [INVALID_INPUT], never with the framework's own code; so is every
    request whose body the validator rejects.  An error with status 413
    is answered with status 413 and code [CONTENT_TOO_LARGE]. *)
Theorem error_normalization :
  (forall err,
     statusCode err = VNum 400 ->
     code err = VStr (js "FST_ERR_VALIDATION") ->
     errorHandler err =
       send 400
         [("error", js_or (error_message err) (VStr (js "Validation error")));
          ("code", VStr (js "INVALID_INPUT"))] /\
     get (payload (errorHandler err)) "code" <> Normal (code err)) /\
  (forall sch handler req msg,
     validateSchema sch (body req) = inl msg ->
     exists r,
       route sch handler req = (Normal r, []) /\
       status r = VNum 400 /\
       get (payload r) "code" = Normal (VStr (js "INVALID_INPUT"))) /\
  (forall err,
     statusCode err = VNum 413 ->
     status (errorHandler err) = VNum 413 /\
     get (payload (errorHandler err)) "code"
       = Normal (VStr (js "CONTENT_TOO_LARGE"))).
Proof.
  split; [|split].
  - intros err Hs Hc. unfold errorHandler. rewrite Hs, Hc.
    split; [reflexivity|]. simpl. discriminate.
  - intros sch handler req msg Hv. unfold route. rewrite Hv.
    eexists. split; [reflexivity|]. split; reflexivity.
  - intros err Hs. unfold errorHandler. rewrite Hs. split; reflexivity.
Qed.

(** C10. A batch item whose processing throws gets an entry with code
    [PROCESSING_ERROR] whose [error] is the exception's message, whatever
    [NODE_ENV] is; the [INTERNAL_ERROR] envelope of the batch handler's
    outer [catch] carries the exception's message only when [NODE_ENV]
    is ['development'], and [undefined] otherwise. *)
Theorem processing_error_exposes_message :
  (forall item index e calls,
     nullish item = false ->
     render_item_try item index = (Throw e, calls) ->
     exists r,
       render_item item index = (Normal r, calls) /\
       lookup "success" r = VBool false /\
       lookup "code" r = VStr (js "PROCESSING_ERROR") /\
       lookup "error" r = VStr (message e)) /\
  (forall body e calls,
     render_batch_try body = (Throw e, calls) ->
     exists r,
       render_batch body = (Normal r, calls) /\
       status r = VNum 500 /\
       get (payload r) "code" = Normal (VStr (js "INTERNAL_ERROR")) /\
       get (payload r) "message" =
         Normal (if strict_equals_string NODE_ENV (js "development")
                 then VStr (message e) else VUndefined)).
Proof.
  split.
  - intros item index e calls Hnn Htry.
    destruct (get_not_nullish item "id" Hnn) as [w Hw].
    rewrite (render_item_caught _ _ _ _ _ Htry Hw).
    eexists. split; [reflexivity|]. repeat split.
  - intros body e calls Htry. unfold render_batch, try_catch.
    rewrite Htry. simpl. rewrite app_nil_r.
    eexists. split; [reflexivity|]. repeat split.
Qed.

(** ** The per-item logic against the single-item handler *)

(** C2, as amended.  For a batch item whose markup is a non-empty string
    and for which the compiler, when the markup is within the size limit,
    returns diagnostics or a non-empty HTML string, the entry is the
    reply of [/render] for that markup embedded as an entry: same
    classification, same code, same payload, same compiler calls.  When
    the compiler throws instead, the entry reports [PROCESSING_ERROR]
    with the exception's message where [/render] replies with the
    [INTERNAL_ERROR] envelope. *)
Theorem item_agrees_on_common_path :
  (forall item index w s,
     get item "id" = Normal w ->
     get item "mjml" = Normal (VStr s) ->
     s <> [] ->
     (Z.of_nat (List.length s) <= 1024 * 1024 ->
      exists res,
        mjml2html (VStr s) = Normal res /\
        (has_errors (errors res) = true \/
         truthy (html res) && typeof_string (html res) = true)) ->
     item_agrees_with_render item index) /\
  (forall item index w s e,
     get item "id" = Normal w ->
     get item "mjml" = Normal (VStr s) ->
     s <> [] ->
     Z.of_nat (List.length s) <= 1024 * 1024 ->
     mjml2html (VStr s) = Throw e ->
     render (VObj [("mjml", VStr s)])
       = (Normal (internal_error e), [VStr s]) /\
     render_item item index =
       (Normal [("id", nullish_or w (VNum (Z.of_nat index)));
                ("success", VBool false);
                ("error", VStr (message e));
                ("code", VStr (js "PROCESSING_ERROR"))], [VStr s])).
Proof.
  split.
  - intros item index w s Hid Hm Hne Hcomp w' m' Hid' Hm'.
    rewrite Hid in Hid'. injection Hid' as <-.
    rewrite Hm in Hm'. injection Hm' as <-.
    destruct s as [|u s]; [congruence|].
    destruct (js_gt (VNum (Z.of_nat (List.length (u :: s)))) (1024 * 1024))
      eqn:Hgt.
    + rewrite (render_item_too_large item index w (VStr (u :: s)) _
                 Hid Hm eq_refl Hgt).
      unfold js_gt in Hgt. apply Z.ltb_lt in Hgt.
      rewrite (render_too_large (VObj [("mjml", VStr (u :: s))]) (u :: s)
                 eq_refl Hgt).
      eexists. eexists. split; reflexivity.
    + assert (Hle : Z.of_nat (List.length (u :: s)) <= 1024 * 1024)
        by (unfold js_gt in Hgt; apply Z.ltb_ge in Hgt; exact Hgt).
      destruct (Hcomp Hle) as [res [Hres Hout]].
      assert (Hrender : forall reply_,
                (if has_errors (errors res) then
                   send 400
                     [("error", VStr (js "MJML compilation failed"));
                      ("code", VStr (js "COMPILATION_ERROR"));
                      ("errors", diagnostics (errors res))]
                 else send 200 [("html", html res)]) = reply_ ->
                render (VObj [("mjml", VStr (u :: s))])
                  = (Normal reply_, [VStr (u :: s)])).
      { intros reply_ <-. unfold render, render_try, call_mjml2html. run.
        change (1048576 <? Z.pos (Pos.of_succ_nat (List.length s)))
          with (js_gt (VNum (Z.of_nat (List.length (u :: s)))) (1024 * 1024)).
        rewrite Hgt, Hres. simpl.
        destruct (has_errors (errors res)); [reflexivity|].
        destruct Hout as [Hout|Hout]; [discriminate|].
        apply andb_true_iff in Hout as [-> ->]. reflexivity. }
      rewrite (Hrender _ eq_refl).
      destruct (has_errors (errors res)) eqn:Herr.
      * rewrite (render_item_compilation_error item index w (VStr (u :: s))
                   _ res Hid Hm eq_refl Hgt Hres Herr).
        eexists. eexists. split; reflexivity.
      * rewrite (render_item_success item index w (VStr (u :: s))
                   _ res Hid Hm eq_refl Hgt Hres Herr).
        eexists. eexists. split; reflexivity.
  - intros item index w s e Hid Hm Hne Hle Hthrow.
    assert (Hgt : js_gt (VNum (Z.of_nat (List.length s))) (1024 * 1024)
                  = false)
      by (unfold js_gt; apply Z.ltb_ge; exact Hle).
    split.
    + destruct s as [|u s]; [congruence|].
      unfold render, render_try, call_mjml2html. run.
      change (1048576 <? Z.pos (Pos.of_succ_nat (List.length s)))
        with (js_gt (VNum (Z.of_nat (List.length (u :: s)))) (1024 * 1024)).
      rewrite Hgt, Hthrow. reflexivity.
    + apply render_item_caught; [|assumption].
      eapply render_item_compiler_throws; try eassumption. reflexivity.
Qed.

(** ** The size check *)




(** ** The preHandler hook *)

(** The hook replies 413 to a POST on [/render-batch] whose [items] is
    an array of more than 100 entries, without a compiler call. *)
Lemma preHandler_over_limit : forall req props items,
  url req = js "/render-batch" ->
  method req = js "POST" ->
  body req = VObj props ->
  lookup "items" props = VArr items ->
  100 < Z.of_nat (List.length items) ->
  preHandler req = (Normal (Some too_many_items), []).
Proof.
  intros req props items Hurl Hmethod Hbody Hitems Hlen.
  unfold preHandler. rewrite Hurl, Hmethod, Hbody.
  rewrite !jsstring_eqb_refl. run. rewrite Hitems. simpl.
  apply Z.ltb_lt in Hlen. now rewrite Hlen.
Qed.

(** The hook never throws, never calls the compiler, and replies only
    in that case. *)
Lemma preHandler_fail_open : forall req,
  exists o,
    preHandler req = (Normal o, []) /\
    (o = None \/
     o = Some too_many_items /\
     url req = js "/render-batch" /\
     method req = js "POST" /\
     exists items,
       get (body req) "items" = Normal (VArr items) /\
       100 < Z.of_nat (List.length items)).
Proof.
  intros req. unfold preHandler.
  destruct (jsstring_eqb (url req) (js "/render-batch")) eqn:Hurl;
    [|exists None; split; [reflexivity|left; reflexivity]].
  destruct (jsstring_eqb (method req) (js "POST")) eqn:Hmethod;
    [|exists None; split; [reflexivity|left; reflexivity]].
  apply jsstring_eqb_eq in Hurl, Hmethod.
  cbn [andb].
  destruct (truthy (body req)) eqn:Hbody;
    [|exists None; split; [reflexivity|left; reflexivity]].
  cbn [negb]. unfold bind, lift, try_catch, ret.
  destruct (get (body req) "items") as [items|e] eqn:Hget;
    [|exists None; split; [reflexivity|left; reflexivity]].
  destruct (isArray items) eqn:Harr.
  - destruct items as [| | | | |elems|]; try discriminate.
    simpl. destruct (100 <? Z.of_nat (List.length elems)) eqn:Hlen.
    + exists (Some too_many_items). split; [reflexivity|].
      right. repeat split; try assumption.
      exists elems. split; [reflexivity|]. now apply Z.ltb_lt.
    + exists None. split; [reflexivity|left; reflexivity].
  - exists None. split; [|left; reflexivity].
    replace (negb (truthy items) || negb false) with true
      by (symmetry; apply orb_true_r).
    reflexivity.
Qed.

(** A URL with a query string is not the route's path: the hook lets
    the request pass. *)
Lemma preHandler_passes_query_url : forall b,
  preHandler {| url := js "/render-batch?retry=1";
                method := js "POST";
                body := b |} = (Normal None, []).
Proof. reflexivity. Qed.

(** A body the validator rejects is answered by the error handler; the
    hook does not run. *)
Lemma validation_precedes_hook : forall sch handler req msg,
  validateSchema sch (body req) = inl msg ->
  route sch handler req =
    (Normal (send 400
               [("error", js_or (VStr msg) (VStr (js "Validation error")));
                ("code", VStr (js "INVALID_INPUT"))]), []).
Proof.
  intros sch handler req msg Hv. unfold route. now rewrite Hv.
Qed.

(** C6, on the code.  The hook is a [preHandler]: the framework runs it
    after it has validated the body against the route's schema.  A POST on
    [/render-batch] with 101 items that lack [mjml] would get 413
    [TOO_MANY_ITEMS] from the hook, but the validator rejects the body
    first, and the reply is 400 [INVALID_INPUT] with the validator's
    message. *)
Theorem over_limit_batch_is_validated_first : forall msg,
  validateSchema batchRenderSchema (body over_limit_request) = inl msg ->
  preHandler over_limit_request = (Normal (Some too_many_items), []) /\
  post_render_batch over_limit_request
    = (Normal (send 400
                 [("error", js_or (VStr msg) (VStr (js "Validation error")));
                  ("code", VStr (js "INVALID_INPUT"))]), []).
Proof.
  intros msg Hv. split; [reflexivity|].
  exact (validation_precedes_hook batchRenderSchema render_batch
           over_limit_request msg Hv).
Qed.

(** * Further properties of the handlers *)

(** ** POST /render: the replies *)

(** The [/render] handler always replies: no exception leaves it, it
    calls the compiler at most once, and the reply is either a 200 whose
    payload is [{ html }] with a non-empty string, or a 400, 413 or 500
    whose payload has a string [error] and a string [code]. *)
Theorem render_always_replies : forall body,
  exists r calls,
    render body = (Normal r, calls) /\
    (List.length calls <= 1)%nat /\
    ((status r = VNum 200 /\
      exists h, h <> [] /\ payload r = VObj [("html", VStr h)]) \/
     ((status r = VNum 400 \/ status r = VNum 413 \/ status r = VNum 500) /\
      exists props,
        payload r = VObj props /\
        typeof_string (lookup "error" props) = true /\
        typeof_string (lookup "code" props) = true)).
Proof.
  intros body.
  assert (Herr : forall code_ props (calls : list value),
            (code_ = 400 \/ code_ = 413 \/ code_ = 500) ->
            (List.length calls <= 1)%nat ->
            typeof_string (lookup "error" props) = true ->
            typeof_string (lookup "code" props) = true ->
            exists r calls',
              (Normal (send code_ props), calls) = (Normal r, calls') /\
              (List.length calls' <= 1)%nat /\
              ((status r = VNum 200 /\
                exists h, h <> [] /\ payload r = VObj [("html", VStr h)]) \/
               ((status r = VNum 400 \/ status r = VNum 413
                 \/ status r = VNum 500) /\
                exists props',
                  payload r = VObj props' /\
                  typeof_string (lookup "error" props') = true /\
                  typeof_string (lookup "code" props') = true))).
  { intros code_ props calls Hc Hl He Hk.
    exists (send code_ props), calls. split; [reflexivity|].
    split; [assumption|]. right. split.
    - destruct Hc as [-> | [-> | ->]]; auto.
    - exists props. auto. }
  unfold render, render_try, call_mjml2html. run.
  destruct (get body "mjml") as [m|e]; simpl.
  2: { apply Herr; simpl; auto. }
  destruct (negb (truthy m) || negb (typeof_string m)) eqn:Hm; simpl.
  { apply Herr; simpl; auto. }
  destruct (get m "length") as [len|e]; simpl.
  2: { apply Herr; simpl; auto. }
  destruct (js_gt len _); simpl.
  { apply Herr; simpl; auto. }
  destruct (mjml2html m) as [res|e]; simpl.
  2: { apply Herr; simpl; auto. }
  destruct (has_errors (errors res)); simpl.
  { apply Herr; simpl; auto. }
  destruct (html res) as [| | | |h| |] eqn:Hh; simpl;
    try (rewrite ?orb_true_r; simpl; apply Herr; simpl; auto; fail).
  destruct h as [|u h]; simpl.
  { apply Herr; simpl; auto. }
  eexists. eexists. split; [reflexivity|]. split; [simpl; lia|].
  left. split; [reflexivity|]. exists (u :: h). split; [discriminate|].
  reflexivity.
Qed.

(** Whatever the [/render] handler hands to the compiler is the body's
    [mjml], a non-empty string of at most [1024 * 1024] code units, and
    it is handed over once. *)
Theorem render_compiler_guard : forall body m,
  In m (compiler_calls (render body)) ->
  exists s,
    m = VStr s /\
    get body "mjml" = Normal m /\
    s <> [] /\
    Z.of_nat (List.length s) <= 1024 * 1024 /\
    compiler_calls (render body) = [m].
Proof.
  intros body m. unfold render, render_try, call_mjml2html. run.
  destruct (get body "mjml") as [v|e]; simpl; [|intros []].
  destruct v as [| | | |s| |]; simpl; rewrite ?orb_true_r; simpl;
    try (intros []; fail).
  destruct s as [|u s]; simpl; [intros []|].
  destruct (Z.ltb_spec 1048576 (Z.pos (Pos.of_succ_nat (List.length s))))
    as [Hlt|Hle]; simpl; [intros []|].
  intros Hin.
  assert (Hm : m = VStr (u :: s)).
  { destruct (mjml2html (VStr (u :: s))) as [res|e]; simpl in Hin.
    - destruct (has_errors (errors res)); simpl in Hin.
      + destruct Hin as [<-|[]]. reflexivity.
      + destruct (negb (truthy (html res)) || negb (typeof_string (html res)));
          simpl in Hin; destruct Hin as [<-|[]]; reflexivity.
    - destruct Hin as [<-|[]]. reflexivity. }
  subst m. exists (u :: s).
  split; [reflexivity|]. split; [reflexivity|]. split; [discriminate|].
  split.
  - change (List.length (u :: s)) with (S (List.length s)). lia.
  - destruct (mjml2html (VStr (u :: s))) as [res|e]; simpl.
    + destruct (has_errors (errors res)); simpl; [reflexivity|].
      destruct (negb (truthy (html res)) || negb (typeof_string (html res)));
        reflexivity.
    + reflexivity.
Qed.

(** The handler as a decision on the body's [mjml]. *)
Lemma render_cases : forall body,
  render body =
    match get body "mjml" with
    | Throw e => (Normal (internal_error e), [])
    | Normal (VStr (u :: s)) =>
        if 1024 * 1024 <? Z.of_nat (List.length (u :: s)) then
          (Normal content_too_large, [])
        else
          match mjml2html (VStr (u :: s)) with
          | Throw e => (Normal (internal_error e), [VStr (u :: s)])
          | Normal res =>
              if has_errors (errors res) then
                (Normal (compilation_error (errors res)), [VStr (u :: s)])
              else if truthy (html res) && typeof_string (html res) then
                (Normal (send 200 [("html", html res)]), [VStr (u :: s)])
              else (Normal no_output, [VStr (u :: s)])
          end
    | Normal _ => (Normal invalid_input, [])
    end.
Proof.
  intros body. unfold render, render_try, call_mjml2html. run.
  destruct (get body "mjml") as [m|e]; simpl; [|reflexivity].
  destruct m as [| |b|n|s| |]; simpl; rewrite ?orb_true_r; simpl;
    try reflexivity.
  destruct s as [|u s]; simpl; [reflexivity|].
  destruct (1048576 <? Z.pos (Pos.of_succ_nat (List.length s))); simpl;
    [reflexivity|].
  destruct (mjml2html (VStr (u :: s))) as [res|e]; simpl; [|reflexivity].
  destruct (has_errors (errors res)); simpl; [reflexivity|].
  destruct (truthy (html res)); destruct (typeof_string (html res));
    reflexivity.
Qed.

(** [/render] replies 200 exactly when the body carries a non-empty
    string markup of at most [1024 * 1024] code units for which the
    compiler returns no diagnostics and a non-empty string; the payload
    is then that string under [html], and the compiler was called once,
    on the markup. *)
Theorem render_ok_iff : forall body r calls,
  render body = (Normal r, calls) ->
  (status r = VNum 200 <->
   exists s res,
     compiles_without_diagnostics body s res /\
     truthy (html res) = true /\
     typeof_string (html res) = true) /\
  (forall s res,
     compiles_without_diagnostics body s res ->
     truthy (html res) = true ->
     typeof_string (html res) = true ->
     r = send 200 [("html", html res)] /\ calls = [VStr s]).
Proof.
  intros body r calls. rewrite render_cases.
  unfold compiles_without_diagnostics.
  destruct (get body "mjml") as [m|e] eqn:Hget.
  2: { intros H. injection H as <- <-. split.
       - split; [discriminate|]. intros [s [res [[Hm _] _]]]. discriminate.
       - intros s res [Hm _]. discriminate. }
  assert (Hinvalid :
            (forall s : jsstring, m = VStr s -> s = []) ->
            (Normal invalid_input, @nil value) = (Normal r, calls) ->
            (status r = VNum 200 <->
             exists s res,
               (Normal m = Normal (VStr s) /\ s <> [] /\
                Z.of_nat (List.length s) <= 1024 * 1024 /\
                mjml2html (VStr s) = Normal res /\
                has_errors (errors res) = false) /\
               truthy (html res) = true /\ typeof_string (html res) = true) /\
            (forall s res,
               Normal m = Normal (VStr s) /\ s <> [] /\
               Z.of_nat (List.length s) <= 1024 * 1024 /\
               mjml2html (VStr s) = Normal res /\
               has_errors (errors res) = false ->
               truthy (html res) = true ->
               typeof_string (html res) = true ->
               r = send 200 [("html", html res)] /\ calls = [VStr s])).
  { intros Hs H. injection H as <- <-. split.
    - split; [discriminate|].
      intros [s [res [[Hm [Hne _]] _]]]. injection Hm as ->.
      elim Hne. now apply (Hs s).
    - intros s res [Hm [Hne _]]. injection Hm as ->.
      elim Hne. now apply (Hs s). }
  destruct m as [| |b|n|s| |]; try (apply Hinvalid; intros; discriminate).
  destruct s as [|u s]; [apply Hinvalid; intros s Hs; now injection Hs as <-|].
  clear Hinvalid.
  destruct (Z.ltb_spec (1024 * 1024) (Z.of_nat (List.length (u :: s))))
    as [Hlt|Hle].
  { intros H. injection H as <- <-. split.
    - split; [discriminate|].
      intros [s' [res [[Hm [_ [Hlen _]]] _]]]. injection Hm as <-. lia.
    - intros s' res [Hm [_ [Hlen _]]]. injection Hm as <-. lia. }
  destruct (mjml2html (VStr (u :: s))) as [res|e] eqn:Hres.
  2: { intros H. injection H as <- <-. split.
       - split; [discriminate|].
         intros [s' [res [[Hm [_ [_ [Hc _]]]] _]]]. injection Hm as <-.
         congruence.
       - intros s' res [Hm [_ [_ [Hc _]]]]. injection Hm as <-. congruence. }
  destruct (has_errors (errors res)) eqn:Herr.
  { intros H. injection H as <- <-. split.
    - split; [discriminate|].
      intros [s' [res' [[Hm [_ [_ [Hc He]]]] _]]]. injection Hm as <-.
      congruence.
    - intros s' res' [Hm [_ [_ [Hc He]]]]. injection Hm as <-. congruence. }
  destruct (truthy (html res)) eqn:Ht; destruct (typeof_string (html res)) eqn:Hs;
    simpl; intros H; injection H as <- <-.
  - split.
    + split; [|reflexivity]. intros _. exists (u :: s), res.
      repeat split; auto. discriminate.
    + intros s' res' [Hm [_ [_ [Hc _]]]] _ _. injection Hm as <-.
      rewrite Hres in Hc. injection Hc as <-. split; reflexivity.
  - split.
    + split; [discriminate|].
      intros [s' [res' [[Hm [_ [_ [Hc _]]]] [_ Hs']]]]. injection Hm as <-.
      congruence.
    + intros s' res' [Hm [_ [_ [Hc _]]]] _ Hs'. injection Hm as <-. congruence.
  - split.
    + split; [discriminate|].
      intros [s' [res' [[Hm [_ [_ [Hc _]]]] [Ht' _]]]]. injection Hm as <-.
      congruence.
    + intros s' res' [Hm [_ [_ [Hc _]]]] Ht' _. injection Hm as <-. congruence.
  - split.
    + split; [discriminate|].
      intros [s' [res' [[Hm [_ [_ [Hc _]]]] [Ht' _]]]]. injection Hm as <-.
      congruence.
    + intros s' res' [Hm [_ [_ [Hc _]]]] Ht' _. injection Hm as <-. congruence.
Qed.

(** [/render] replies 400 [INVALID_INPUT] exactly when the body's [mjml]
    is missing, empty or not a string, and then without a compiler
    call. *)
Theorem render_invalid_input_iff : forall body m r calls,
  get body "mjml" = Normal m ->
  render body = (Normal r, calls) ->
  (r = invalid_input <-> truthy m = false \/ typeof_string m = false) /\
  (r = invalid_input -> calls = []).
Proof.
  intros body m r calls Hget. rewrite render_cases, Hget.
  destruct m as [| |b|n|s| |];
    try (intros H; injection H as <- <-;
         split; [split; [intros _; right; reflexivity|reflexivity]
                |reflexivity]).
  destruct s as [|u s].
  { intros H. injection H as <- <-.
    split; [split; [intros _; left; reflexivity|reflexivity]|reflexivity]. }
  assert (Hno : forall r' : reply,
            r' <> invalid_input ->
            (r' = invalid_input <->
             truthy (VStr (u :: s)) = false \/
             typeof_string (VStr (u :: s)) = false) /\
            (r' = invalid_input -> calls = [])).
  { intros r' Hr'. split; [split|]; try (intros E; contradiction).
    intros [E|E]; discriminate. }
  destruct (1024 * 1024 <? Z.of_nat (List.length (u :: s))).
  { intros H. injection H as <- _. apply Hno. discriminate. }
  destruct (mjml2html (VStr (u :: s))) as [res|e].
  2: { intros H. injection H as <- _. apply Hno. discriminate. }
  destruct (has_errors (errors res)).
  { intros H. injection H as <- _. apply Hno. discriminate. }
  destruct (truthy (html res) && typeof_string (html res));
    intros H; injection H as <- _; apply Hno; discriminate.
Qed.


(** [/render] replies 500 [NO_OUTPUT] exactly when the compiler, called
    on the body's markup, returns no diagnostics and an [html] that is
    empty, absent or not a string. *)
Theorem render_no_output_iff : forall body r calls,
  render body = (Normal r, calls) ->
  (r = no_output <->
   exists s res,
     compiles_without_diagnostics body s res /\
     (truthy (html res) = false \/ typeof_string (html res) = false)).
Proof.
  intros body r calls. rewrite render_cases.
  unfold compiles_without_diagnostics.
  assert (Hno : forall r' : reply,
            r' <> no_output ->
            ~ (exists s res,
                 (get body "mjml" = Normal (VStr s) /\ s <> [] /\
                  Z.of_nat (List.length s) <= 1024 * 1024 /\
                  mjml2html (VStr s) = Normal res /\
                  has_errors (errors res) = false) /\
                 (truthy (html res) = false \/
                  typeof_string (html res) = false)) ->
            (r' = no_output <->
             exists s res,
               (get body "mjml" = Normal (VStr s) /\ s <> [] /\
                Z.of_nat (List.length s) <= 1024 * 1024 /\
                mjml2html (VStr s) = Normal res /\
                has_errors (errors res) = false) /\
               (truthy (html res) = false \/
                typeof_string (html res) = false))).
  { intros r' Hr' Hex. split; intros E; contradiction. }
  destruct (get body "mjml") as [m|e] eqn:Hget.
  2: { intros H. injection H as <- _. apply Hno; [discriminate|].
       intros [s [res [[Hm _] _]]]. discriminate. }
  destruct m as [| |b|n|s| |];
    try (intros H; injection H as <- _; apply Hno; [discriminate|];
         intros [s' [res [[Hm _] _]]]; discriminate).
  destruct s as [|u s].
  { intros H. injection H as <- _. apply Hno; [discriminate|].
    intros [s' [res [[Hm [Hne _]] _]]]. injection Hm as <-. now elim Hne. }
  destruct (Z.ltb_spec (1024 * 1024) (Z.of_nat (List.length (u :: s))))
    as [Hlt|Hle].
  { intros H. injection H as <- _. apply Hno; [discriminate|].
    intros [s' [res [[Hm [_ [Hlen _]]] _]]]. injection Hm as <-. lia. }
  destruct (mjml2html (VStr (u :: s))) as [res|e] eqn:Hres.
  2: { intros H. injection H as <- _. apply Hno; [discriminate|].
       intros [s' [res [[Hm [_ [_ [Hc _]]]] _]]]. injection Hm as <-.
       congruence. }
  destruct (has_errors (errors res)) eqn:Herr.
  { intros H. injection H as <- _. apply Hno; [discriminate|].
    intros [s' [res' [[Hm [_ [_ [Hc He]]]] _]]]. injection Hm as <-.
    congruence. }
  destruct (truthy (html res)) eqn:Ht;
    destruct (typeof_string (html res)) eqn:Hs; simpl;
    intros H; injection H as <- _.
  - apply Hno; [discriminate|].
    intros [s' [res' [[Hm [_ [_ [Hc _]]]] [E|E]]]]; injection Hm as <-;
      congruence.
  - split; [|reflexivity]. intros _. exists (u :: s), res.
    repeat split; auto. discriminate.
  - split; [|reflexivity]. intros _. exists (u :: s), res.
    repeat split; auto. discriminate.
  - split; [|reflexivity]. intros _. exists (u :: s), res.
    repeat split; auto. discriminate.
Qed.

(** ** POST /render-batch: edges of the handler and of the callback *)

Lemma render_batch_cases : forall body,
  render_batch body =
    match get body "items" with
    | Throw e => (Normal (internal_error e), [])
    | Normal (VArr (item :: items)) =>
        match array_map render_item (item :: items) with
        | (Normal results, calls) => (Normal (batch_reply results), calls)
        | (Throw e, calls) => (Normal (internal_error e), calls)
        end
    | Normal _ => (Normal invalid_items, [])
    end.
Proof.
  intros body. unfold render_batch, render_batch_try.
  destruct (get body "items") as [v|e]; [|reflexivity].
  destruct v as [| | | | |[|x l]|]; try reflexivity.
  unfold bind, lift, try_catch, ret. cbv beta iota zeta.
  change (List.length (x :: l) =? 0)%nat with false. cbv iota.
  destruct (array_map render_item (x :: l)) as [[results|e] calls]; simpl;
    now rewrite app_nil_r.
Qed.

(** The batch handler replies 400 exactly when [items] is missing, not an
    array or empty; the reply is then [INVALID_INPUT] and the compiler is
    not called. *)
Theorem render_batch_invalid_items_iff : forall body v r calls,
  get body "items" = Normal v ->
  render_batch body = (Normal r, calls) ->
  (status r = VNum 400 <-> forall items, v = VArr items -> items = []) /\
  (status r = VNum 400 -> r = invalid_items /\ calls = []).
Proof.
  intros body v r calls Hget. rewrite render_batch_cases, Hget.
  destruct v as [| | | | |[|x l]|];
    try (intros H; injection H as <- <-;
         split; [split; [intros _ items E; discriminate|reflexivity]
                |intros _; split; reflexivity]).
  - intros H. injection H as <- <-.
    split; [split; [intros _ items E; now injection E as <-|reflexivity]
           |intros _; split; reflexivity].
  - destruct (array_map render_item (x :: l)) as [[results|e] c];
      intros H; injection H as <- <-;
      (split; [split; [discriminate|]|discriminate]);
      intros Hall; discriminate (Hall (x :: l) eq_refl).
Qed.

(** On an item that is [undefined] or [null] the callback throws: the
    [catch] block reads [item.id] again. *)
Lemma render_item_nullish : forall item index,
  nullish item = true ->
  render_item item index = (Throw (TypeError item "id"), []).
Proof.
  intros item index H. destruct item; try discriminate; reflexivity.
Qed.

(** The compiler calls of the callback on any other item. *)
Lemma render_item_calls : forall item index,
  nullish item = false ->
  exists r, render_item item index = (Normal r, item_calls item).
Proof.
  intros item index Hnn.
  destruct (get_not_nullish item "id" Hnn) as [w Hw].
  unfold render_item, render_item_try, render_item_catch, call_mjml2html,
    item_calls.
  rewrite Hw. run.
  destruct (get item "mjml") as [m|e]; simpl; [|eauto].
  destruct (get m "length") as [len|e]; simpl; [|eauto].
  destruct (js_gt len 1048576); simpl; [eauto|].
  destruct (mjml2html m) as [res|e]; simpl; [|eauto].
  destruct (has_errors (errors res)); simpl; eauto.
Qed.

Lemma map_from_calls : forall A (f : value -> nat -> M A) g l index,
  (forall item j, In item l -> exists r, f item j = (Normal r, g item)) ->
  exists rs, map_from f index l = (Normal rs, flat_map g l).
Proof.
  intros A f g l. induction l as [|x l IH]; intros index Hf; simpl.
  - unfold ret. eauto.
  - destruct (Hf x index (or_introl eq_refl)) as [r Ef].
    destruct (IH (S index) (fun item j Hin => Hf item j (or_intror Hin)))
      as [rs Em].
    unfold bind, ret. rewrite Ef, Em. simpl. rewrite app_nil_r. eauto.
Qed.

Lemma map_from_throws : forall A (f : value -> nat -> M A) g before item after
    index e c,
  (forall it j, In it before -> exists r, f it j = (Normal r, g it)) ->
  f item (index + List.length before)%nat = (Throw e, c) ->
  map_from f index (before ++ item :: after)
    = (Throw e, flat_map g before ++ c).
Proof.
  intros A f g before. induction before as [|x l IH];
    intros item after index e c Hf Hthrow; simpl.
  - rewrite Nat.add_0_r in Hthrow. unfold bind. now rewrite Hthrow.
  - destruct (Hf x index (or_introl eq_refl)) as [r Ef].
    simpl in Hthrow. rewrite Nat.add_succ_r in Hthrow.
    unfold bind at 1. rewrite Ef.
    rewrite (IH item after (S index) e c
               (fun it j Hin => Hf it j (or_intror Hin)) Hthrow).
    simpl. now rewrite app_assoc.
Qed.

(** An item that is [undefined] or [null] aborts the whole batch: the
    reply is the 500 [INTERNAL_ERROR] envelope, without results, although
    the items before it have been through the compiler; the items after
    it are not processed. *)
Theorem null_item_aborts_batch : forall body before item after,
  get body "items" = Normal (VArr (before ++ item :: after)) ->
  Forall (fun it => nullish it = false) before ->
  nullish item = true ->
  render_batch body =
    (Normal (internal_error (TypeError item "id")),
     flat_map item_calls before).
Proof.
  intros body before item after Hget Hbefore Hnull.
  rewrite Forall_forall in Hbefore.
  rewrite render_batch_cases, Hget.
  assert (Hmap : array_map render_item (before ++ item :: after)
                 = (Throw (TypeError item "id"),
                    flat_map item_calls before ++ [])).
  { unfold array_map. apply map_from_throws.
    - intros it j Hin. apply render_item_calls. now apply Hbefore.
    - now apply render_item_nullish. }
  rewrite app_nil_r in Hmap.
  destruct (before ++ item :: after) as [|x l] eqn:E;
    [destruct before; discriminate|].
  now rewrite Hmap.
Qed.

(** In a batch without [undefined] or [null] items, the compiler is
    called on the items' markups in input order, at most once per item,
    and never on one whose length is over the limit or cannot be read. *)
Theorem batch_compiler_calls : forall body items,
  get body "items" = Normal (VArr items) ->
  Forall (fun it => nullish it = false) items ->
  compiler_calls (render_batch body) = flat_map item_calls items /\
  (forall item, (List.length (item_calls item) <= 1)%nat) /\
  (forall item m, In m (item_calls item) ->
     get item "mjml" = Normal m /\
     exists len, get m "length" = Normal len /\
                 js_gt len (1024 * 1024) = false).
Proof.
  intros body items Hget Hall. rewrite Forall_forall in Hall.
  split; [|split].
  - rewrite render_batch_cases, Hget.
    destruct items as [|x l]; [reflexivity|].
    destruct (map_from_calls _ render_item item_calls (x :: l) 0%nat
                (fun it j Hin => render_item_calls it j (Hall it Hin)))
      as [rs Hmap].
    unfold array_map. now rewrite Hmap.
  - intros item. unfold item_calls.
    destruct (get item "mjml") as [m|e]; [|simpl; lia].
    destruct (get m "length") as [len|e]; [|simpl; lia].
    destruct (js_gt len (1024 * 1024)); simpl; lia.
  - intros item m. unfold item_calls.
    destruct (get item "mjml") as [m'|e]; [|intros []].
    destruct (get m' "length") as [len|e] eqn:Hlen; [|intros []].
    destruct (js_gt len (1024 * 1024)) eqn:Hgt; [intros []|].
    intros [<-|[]]. split; [reflexivity|]. exists len. split; assumption.
Qed.

(** An item whose [mjml] is missing or [null] gets a [PROCESSING_ERROR]
    entry carrying the engine's [TypeError] message, and the compiler is
    not called for it. *)
Theorem item_without_mjml : forall item index w m,
  get item "id" = Normal w ->
  get item "mjml" = Normal m ->
  nullish m = true ->
  render_item item index =
    (Normal [("id", nullish_or w (VNum (Z.of_nat index)));
             ("success", VBool false);
             ("error", VStr (message (TypeError m "length")));
             ("code", VStr (js "PROCESSING_ERROR"))], []).
Proof.
  intros item index w m Hid Hm Hnull.
  apply render_item_caught; [|assumption].
  unfold render_item_try. rewrite Hid, Hm. run.
  destruct m; try discriminate; reflexivity.
Qed.

(** The callback as a decision on the item. *)
Lemma render_item_cases : forall item index w,
  get item "id" = Normal w ->
  render_item item index =
    let caught e calls :=
      (Normal [("id", nullish_or w (VNum (Z.of_nat index)));
               ("success", VBool false);
               ("error", VStr (message e));
               ("code", VStr (js "PROCESSING_ERROR"))], calls) in
    match get item "mjml" with
    | Throw e => caught e []
    | Normal m =>
        match get m "length" with
        | Throw e => caught e []
        | Normal len =>
            if js_gt len (1024 * 1024) then
              (Normal
                 [("id", resolved_id w index);
                  ("success", VBool false);
                  ("error", VStr (js "MJML content is too large (max 1MB)"));
                  ("code", VStr (js "CONTENT_TOO_LARGE"))], [])
            else
              match mjml2html m with
              | Throw e => caught e [m]
              | Normal res =>
                  if has_errors (errors res) then
                    (Normal
                       [("id", resolved_id w index);
                        ("success", VBool false);
                        ("error", VStr (js "MJML compilation failed"));
                        ("code", VStr (js "COMPILATION_ERROR"));
                        ("errors", diagnostics (errors res))], [m])
                  else
                    (Normal
                       [("id", resolved_id w index);
                        ("success", VBool true);
                        ("html", html res)], [m])
              end
        end
    end.
Proof.
  intros item index w Hw.
  unfold render_item, render_item_try, render_item_catch, call_mjml2html.
  rewrite Hw. run.
  destruct (get item "mjml") as [m|e]; simpl; [|reflexivity].
  destruct (get m "length") as [len|e]; simpl; [|reflexivity].
  destruct (js_gt len 1048576); simpl; [reflexivity|].
  destruct (mjml2html m) as [res|e]; simpl; [|reflexivity].
  destruct (has_errors (errors res)); reflexivity.
Qed.

(** A batch entry reports a success exactly when the item's markup is
    within the size limit and the compiler returns for it without
    diagnostics; the entry's [html] is then whatever the compiler
    returned as [html], and the compiler was called once. *)
Theorem render_item_success_iff : forall item index r calls,
  render_item item index = (Normal r, calls) ->
  (lookup "success" r = VBool true <->
   exists m len res,
     get item "mjml" = Normal m /\
     get m "length" = Normal len /\
     js_gt len (1024 * 1024) = false /\
     mjml2html m = Normal res /\
     has_errors (errors res) = false) /\
  (lookup "success" r = VBool true ->
   forall m res,
     get item "mjml" = Normal m ->
     mjml2html m = Normal res ->
     lookup "html" r = html res /\ calls = [m]).
Proof.
  intros item index r calls.
  destruct (get item "id") as [w|e0] eqn:Hw.
  2: { unfold render_item, render_item_try, render_item_catch.
       rewrite Hw. run. discriminate. }
  rewrite (render_item_cases item index w Hw). cbv zeta.
  assert (Hno : forall r' : object,
            lookup "success" r' = VBool false ->
            ~ (exists m len res,
                 get item "mjml" = Normal m /\
                 get m "length" = Normal len /\
                 js_gt len (1024 * 1024) = false /\
                 mjml2html m = Normal res /\
                 has_errors (errors res) = false) ->
            (lookup "success" r' = VBool true <->
             exists m len res,
               get item "mjml" = Normal m /\
               get m "length" = Normal len /\
               js_gt len (1024 * 1024) = false /\
               mjml2html m = Normal res /\
               has_errors (errors res) = false) /\
            (lookup "success" r' = VBool true ->
             forall m res,
               get item "mjml" = Normal m ->
               mjml2html m = Normal res ->
               lookup "html" r' = html res /\ calls = [m])).
  { intros r' Hf Hex. split; [split|]; intros E; try contradiction;
      rewrite Hf in E; discriminate. }
  destruct (get item "mjml") as [m|e] eqn:Hm.
  2: { intros H. injection H as <- _. apply Hno; [reflexivity|].
       intros [m' [len [res [E _]]]]. discriminate. }
  destruct (get m "length") as [len|e] eqn:Hlen.
  2: { intros H. injection H as <- _. apply Hno; [reflexivity|].
       intros [m' [len [res [E [El _]]]]]. injection E as <-. congruence. }
  destruct (js_gt len (1024 * 1024)) eqn:Hgt.
  { intros H. injection H as <- _. apply Hno; [reflexivity|].
    intros [m' [len' [res [E [El [Eg _]]]]]]. injection E as <-.
    rewrite Hlen in El. injection El as <-. congruence. }
  destruct (mjml2html m) as [res|e] eqn:Hres.
  2: { intros H. injection H as <- _. apply Hno; [reflexivity|].
       intros [m' [len' [res [E [_ [_ [Ec _]]]]]]]. injection E as <-.
       congruence. }
  destruct (has_errors (errors res)) eqn:Herr.
  { intros H. injection H as <- _. apply Hno; [reflexivity|].
    intros [m' [len' [res' [E [_ [_ [Ec Ee]]]]]]]. injection E as <-.
    congruence. }
  intros H. injection H as <- <-. split.
  - split; [|reflexivity]. intros _. exists m, len, res. auto.
  - intros _ m' res' E Ec. injection E as <-.
    rewrite Hres in Ec. injection Ec as <-. split; reflexivity.
Qed.

(** Every entry of a batch has an [id] that is not [undefined] and a
    boolean [success]; a success has no [error] and no [code]; a failure
    has no [html], a string [error], and one of the three codes
    [CONTENT_TOO_LARGE], [COMPILATION_ERROR] and [PROCESSING_ERROR]. *)
Theorem batch_entry_shape : forall item index r calls,
  render_item item index = (Normal r, calls) ->
  is_defined (lookup "id" r) = true /\
  ((lookup "success" r = VBool true /\
    lookup "error" r = VUndefined /\
    lookup "code" r = VUndefined) \/
   (lookup "success" r = VBool false /\
    lookup "html" r = VUndefined /\
    typeof_string (lookup "error" r) = true /\
    (lookup "code" r = VStr (js "CONTENT_TOO_LARGE") \/
     lookup "code" r = VStr (js "COMPILATION_ERROR") \/
     lookup "code" r = VStr (js "PROCESSING_ERROR")))).
Proof.
  intros item index r calls.
  destruct (get item "id") as [w|e0] eqn:Hw.
  2: { unfold render_item, render_item_try, render_item_catch.
       rewrite Hw. run. discriminate. }
  rewrite (render_item_cases item index w Hw). cbv zeta.
  assert (Hid : is_defined (resolved_id w index) = true)
    by (unfold resolved_id; destruct w; reflexivity).
  assert (Hid' : is_defined (nullish_or w (VNum (Z.of_nat index))) = true)
    by (destruct w; reflexivity).
  destruct (get item "mjml") as [m|e];
    [|intros H; injection H as <- _; split; [exact Hid'|];
      right; repeat split; auto].
  destruct (get m "length") as [len|e];
    [|intros H; injection H as <- _; split; [exact Hid'|];
      right; repeat split; auto].
  destruct (js_gt len (1024 * 1024));
    [intros H; injection H as <- _; split; [exact Hid|];
     right; repeat split; auto|].
  destruct (mjml2html m) as [res|e];
    [|intros H; injection H as <- _; split; [exact Hid'|];
      right; repeat split; auto].
  destruct (has_errors (errors res));
    intros H; injection H as <- _; (split; [exact Hid|]).
  - right. repeat split; auto.
  - left. repeat split.
Qed.

(** ** The hook and the error handler *)

(** The hook never throws and never calls the compiler; it replies, with
    413 [TOO_MANY_ITEMS], exactly when the request's URL is
    ['/render-batch'], its method ['POST'] and the body's [items] an
    array of more than 100 entries; otherwise the request goes on. *)
Theorem preHandler_replies_iff : forall req,
  exists o,
    preHandler req = (Normal o, []) /\
    (o = None \/ o = Some too_many_items) /\
    (o = Some too_many_items <->
     url req = js "/render-batch" /\
     method req = js "POST" /\
     exists items,
       get (body req) "items" = Normal (VArr items) /\
       100 < Z.of_nat (List.length items)).
Proof.
  intros req. destruct (preHandler_fail_open req) as [o [Hrun Ho]].
  exists o. split; [assumption|]. split.
  - destruct Ho as [->|[-> _]]; auto.
  - split.
    + intros E. destruct Ho as [->|[_ H]]; [discriminate|exact H].
    + intros [Hurl [Hmethod [items [Hget Hlen]]]].
      destruct req as [u mth b]. simpl in *.
      destruct b as [| | | |s|l|props]; simpl in Hget; try discriminate.
      injection Hget as Hitems.
      rewrite (preHandler_over_limit
                 {| url := u; method := mth; body := VObj props |}
                 props items Hurl Hmethod eq_refl Hitems Hlen) in Hrun.
      now injection Hrun as <-.
Qed.

(** The batch handler always replies: no exception leaves it, and the
    reply is the 200 with a summary and the results, the 400
    [INVALID_INPUT] for a missing or empty [items], or the 500
    [INTERNAL_ERROR] envelope. *)
Theorem render_batch_always_replies : forall body,
  exists r calls,
    render_batch body = (Normal r, calls) /\
    ((exists results, r = batch_reply results) \/
     r = invalid_items /\ calls = [] \/
     (exists e, r = internal_error e)).
Proof.
  intros body. rewrite render_batch_cases.
  destruct (get body "items") as [v|e];
    [|eexists; eexists; split; [reflexivity|]; right; right; eauto].
  destruct v as [| | | | |[|x l]|];
    try (eexists; eexists; split; [reflexivity|]; right; left;
         split; reflexivity).
  destruct (array_map render_item (x :: l)) as [[results|e] c];
    eexists; eexists; (split; [reflexivity|]);
    [left; eauto|right; right; eauto].
Qed.

Lemma render_batch_normal : forall body,
  exists r calls, render_batch body = (Normal r, calls).
Proof.
  intros body. rewrite render_batch_cases.
  destruct (get body "items") as [v|e]; [|eauto].
  destruct v as [| | | | |[|x l]|]; eauto.
  destruct (array_map render_item (x :: l)) as [[results|e] c]; eauto.
Qed.

(** For a POST on ['/render-batch'] whose body the validator accepts: with
    more than 100 items the reply is 413 [TOO_MANY_ITEMS] and the compiler
    is never called; with at most 100 the reply is the batch handler's,
    on the body as the validator left it. *)
Theorem batch_limit_guards_the_compiler : forall req validated items,
  url req = js "/render-batch" ->
  method req = js "POST" ->
  validateSchema batchRenderSchema (body req) = inr validated ->
  get validated "items" = Normal (VArr items) ->
  (100 < Z.of_nat (List.length items) ->
   post_render_batch req = (Normal too_many_items, [])) /\
  (Z.of_nat (List.length items) <= 100 ->
   post_render_batch req = render_batch validated).
Proof.
  intros req validated items Hurl Hmethod Hvalid Hget.
  unfold post_render_batch, route. rewrite Hvalid.
  destruct validated as [| | | |s|l|props]; simpl in Hget; try discriminate;
    try (destruct (String.eqb "items" "length"); discriminate).
  injection Hget as Hitems. split.
  - intros Hlen.
    rewrite (preHandler_over_limit
               {| url := url req; method := method req; body := VObj props |}
               props items Hurl Hmethod eq_refl Hitems Hlen).
    reflexivity.
  - intros Hlen.
    assert (Hpass : preHandler {| url := url req; method := method req;
                                  body := VObj props |} = (Normal None, [])).
    { unfold preHandler. simpl. rewrite Hurl, Hmethod.
      rewrite !jsstring_eqb_refl. run. rewrite Hitems. simpl.
      apply Z.ltb_ge in Hlen. now rewrite Hlen. }
    rewrite Hpass.
    destruct (render_batch_normal (VObj props)) as [r [calls Hr]].
    unfold bind, try_catch, ret. rewrite Hr. reflexivity.
Qed.

(** The error handler replies with the error's own status when that is
    an HTTP status code and with 500 when the error has none; whenever the
    error has a non-empty message, the reply's [error] is that message. *)
Theorem errorHandler_status_and_message :
  (forall err n,
     statusCode err = VNum n -> 100 <= n <= 599 ->
     status (errorHandler err) = VNum n) /\
  (forall err,
     truthy (statusCode err) = false ->
     status (errorHandler err) = VNum 500 /\
     get (payload (errorHandler err)) "statusCode" = Normal (VNum 500)) /\
  (forall err,
     truthy (error_message err) = true ->
     get (payload (errorHandler err)) "error" = Normal (error_message err)).
Proof.
  split; [|split].
  - intros err n Hs Hn. unfold errorHandler. rewrite Hs. simpl.
    destruct (Z.eqb_spec n 400) as [->|H400].
    + destruct (strict_equals_string (code err) (js "FST_ERR_VALIDATION"));
        reflexivity.
    + simpl. destruct (Z.eqb_spec n 413) as [->|H413]; [reflexivity|].
      simpl. unfold js_or. simpl.
      destruct (Z.eqb_spec n 0); [lia|reflexivity].
  - intros err Hs. unfold errorHandler.
    destruct (statusCode err) as [| |b|n| | |]; simpl in Hs; try discriminate;
      simpl; try (split; reflexivity).
    + subst b. split; reflexivity.
    + apply negb_false_iff, Z.eqb_eq in Hs. subst n. split; reflexivity.
    + destruct s; [split; reflexivity|discriminate].
  - intros err Hm. unfold errorHandler, js_or. rewrite Hm.
    destruct (strict_equals_number (statusCode err) 400
              && strict_equals_string (code err) (js "FST_ERR_VALIDATION"));
      [reflexivity|].
    destruct (strict_equals_number (statusCode err) 413); reflexivity.
Qed.

End Server.

(** * What the replies do not reveal *)

(** Outside development mode the reply of [/render] does not depend on
    what was thrown: two compilers that differ only in the exceptions
    they throw, and two engines that differ in their error texts, get the
    same reply and the same compiler calls for every body. *)
Theorem render_hides_exceptions_outside_development :
  forall c1 c2 NODE_ENV TypeError1 TypeError2 ToNumber1 ToNumber2 body,
    strict_equals_string NODE_ENV (js "development") = false ->
    same_up_to_exceptions c1 c2 ->
    render c1 NODE_ENV TypeError1 ToNumber1 body
    = render c2 NODE_ENV TypeError2 ToNumber2 body.
Proof.
  intros c1 c2 NODE_ENV TE1 TE2 TN1 TN2 body Hdev Hsame.
  rewrite !render_cases. unfold internal_error. rewrite Hdev.
  destruct body as [| |b|n|s|l|props]; simpl; try reflexivity.
  destruct (lookup "mjml" props) as [| |b|n|s|l|o]; try reflexivity.
  destruct s as [|u s]; [reflexivity|].
  match goal with
  | |- (if ?c then _ else _) = _ => destruct c; [reflexivity|]
  end.
  specialize (Hsame (VStr (u :: s))).
  destruct (c1 (VStr (u :: s))) as [r1|e1], (c2 (VStr (u :: s))) as [r2|e2];
    try contradiction; [now subst r2|reflexivity].
Qed.

(** * The handlers on the samples *)

Example sample_batch_run :
  render_batch sample_mjml2html production sample_TypeError sample_ToNumber
    sample_batch
  = (Normal (batch_reply sample_results), sample_calls).
Proof. reflexivity. Qed.

Example sample_batch_summary :
  get sample_TypeError (payload (batch_reply sample_results)) "summary"
  = Normal (VObj [("total", VNum 3); ("success", VNum 1); ("failed", VNum 2)]).
Proof. reflexivity. Qed.

Example sample_render_empty :
  render sample_mjml2html production sample_TypeError sample_ToNumber
    (VObj [("mjml", VStr [])])
  = (Normal (send 400
               [("error",
                  VStr (js "MJML content is required and must be a string"));
                ("code", VStr (js "INVALID_INPUT"))]), []).
Proof. reflexivity. Qed.

(** Read without coercion, the batch schema accepts an item with an
    [mjml] only and rejects one that also has an [id], which matches both
    alternatives of [oneOf]. *)
Example plain_validity_of_items :
  valid batchRenderSchema
    (VObj [("items", VArr [VObj [("mjml", VStr (js "<mjml></mjml>"))]])])
  = true /\
  valid batchRenderSchema sample_batch = false.
Proof. split; reflexivity. Qed.

(** * Instances *)

Lemma over_limit_batch_is_validated_first_witness :
  plain_validator batchRenderSchema (body over_limit_request)
    = inl (js "body does not match the schema") /\
  post_render_batch sample_mjml2html production sample_TypeError
    sample_ToNumber plain_validator over_limit_request
    = (Normal (send 400
                 [("error", VStr (js "body does not match the schema"));
                  ("code", VStr (js "INVALID_INPUT"))]), []).
Proof.
  split; [reflexivity|].
  exact (proj2 (over_limit_batch_is_validated_first sample_mjml2html
                  production sample_TypeError sample_ToNumber plain_validator
                  (js "body does not match the schema") eq_refl)).
Defined.

Lemma batch_isolation_witness :
  get sample_TypeError sample_batch "items" = Normal (VArr sample_items) /\
  (1 <= List.length sample_items)%nat /\
  Forall (fun item => nullish item = false) sample_items /\
  exists results calls,
    render_batch sample_mjml2html production sample_TypeError sample_ToNumber
      sample_batch = (Normal (batch_reply results), calls) /\
    List.length results = List.length sample_items.
Proof.
  assert (H1 : (1 <= List.length sample_items)%nat) by (simpl; lia).
  assert (H2 : Forall (fun item => nullish item = false) sample_items)
    by (repeat constructor).
  split; [reflexivity|]. split; [exact H1|]. split; [exact H2|].
  destruct (batch_isolation sample_mjml2html production sample_TypeError
              sample_ToNumber sample_batch sample_items eq_refl H1 H2)
    as [results [calls [Hrun [Hlen _]]]].
  exists results, calls. split; assumption.
Defined.

Lemma batch_summary_invariant_witness :
  status (batch_reply sample_results) = VNum 200 /\
  exists items results,
    get sample_TypeError sample_batch "items" = Normal (VArr items) /\
    count_results true results + count_results false results
      = Z.of_nat (List.length items).
Proof.
  split; [reflexivity|].
  destruct (batch_summary_invariant sample_mjml2html production
              sample_TypeError sample_ToNumber sample_batch
              (batch_reply sample_results) sample_calls eq_refl eq_refl)
    as [items [results [Hget [_ Hsum]]]].
  exists items, results. split; assumption.
Defined.


Lemma render_compilation_error_witness :
  exists entries,
    render sample_mjml2html production sample_TypeError sample_ToNumber
      (VObj [("mjml", VStr (js "<mjml><mj-invalid/></mjml>"))])
    = (Normal (send 400
                 [("error", VStr (js "MJML compilation failed"));
                  ("code", VStr (js "COMPILATION_ERROR"));
                  ("errors", VArr entries)]),
       [VStr (js "<mjml><mj-invalid/></mjml>")]) /\
    List.length entries = 1%nat.
Proof.
  destruct (render_compilation_error sample_mjml2html production
              sample_TypeError sample_ToNumber
              (VObj [("mjml", VStr (js "<mjml><mj-invalid/></mjml>"))])
              (VStr (js "<mjml><mj-invalid/></mjml>"))
              _ _ _ eq_refl (or_introl eq_refl) eq_refl eq_refl)
    as [entries [Hrun [Hlen _]]].
  exists entries. split; assumption.
Defined.


Lemma error_normalization_witness :
  errorHandler
    {| error_message := VStr (js "body must have required property 'mjml'");
       statusCode := VNum 400;
       code := VStr (js "FST_ERR_VALIDATION") |}
  = send 400
      [("error", VStr (js "body must have required property 'mjml'"));
       ("code", VStr (js "INVALID_INPUT"))] /\
  (exists r,
     post_render sample_mjml2html production sample_TypeError sample_ToNumber
       plain_validator
       {| url := js "/render"; method := js "POST"; body := VObj [] |}
     = (Normal r, []) /\
     status r = VNum 400) /\
  status
    (errorHandler
       {| error_message := VStr (js "Request body is too large");
          statusCode := VNum 413;
          code := VStr (js "FST_ERR_CTP_BODY_TOO_LARGE") |})
  = VNum 413.
Proof.
  destruct (error_normalization sample_TypeError sample_ToNumber
              plain_validator) as [Hvalidation [Hroute Htoo_large]].
  split; [|split].
  - exact (proj1 (Hvalidation
             {| error_message :=
                  VStr (js "body must have required property 'mjml'");
                statusCode := VNum 400;
                code := VStr (js "FST_ERR_VALIDATION") |} eq_refl eq_refl)).
  - destruct (Hroute renderSchema
                (render sample_mjml2html production sample_TypeError
                   sample_ToNumber)
                {| url := js "/render"; method := js "POST"; body := VObj [] |}
                (js "body does not match the schema") eq_refl)
      as [r [Hrun [Hstatus _]]].
    exists r. split; assumption.
  - exact (proj1 (Htoo_large
             {| error_message := VStr (js "Request body is too large");
                statusCode := VNum 413;
                code := VStr (js "FST_ERR_CTP_BODY_TOO_LARGE") |} eq_refl)).
Defined.

Lemma processing_error_exposes_message_witness :
  (exists r,
     render_item sample_mjml2html sample_TypeError sample_ToNumber
       (VObj [("mjml", VStr (js "<mjml>"))]) 1
       = (Normal r, [VStr (js "<mjml>")]) /\
     lookup "error" r = VStr (js "Malformed MJML")) /\
  (exists r,
     render_batch sample_mjml2html production sample_TypeError sample_ToNumber
       VUndefined = (Normal r, []) /\
     get sample_TypeError (payload r) "message" = Normal VUndefined).
Proof.
  destruct (processing_error_exposes_message sample_mjml2html production
              sample_TypeError sample_ToNumber) as [Hitem Hbatch].
  split.
  - destruct (Hitem (VObj [("mjml", VStr (js "<mjml>"))]) 1%nat
                (Exn (js "Malformed MJML")) [VStr (js "<mjml>")]
                eq_refl eq_refl) as [r [Hrun [_ [_ Herr]]]].
    exists r. split; assumption.
  - destruct (Hbatch VUndefined (sample_TypeError VUndefined "items") []
                eq_refl) as [r [Hrun [_ [_ Hmsg]]]].
    exists r. split; assumption.
Defined.

Lemma item_agrees_on_common_path_witness :
  item_agrees_with_render sample_mjml2html production sample_TypeError
    sample_ToNumber
    (VObj [("id", VStr (js "a")); ("mjml", VStr (js "<mjml></mjml>"))]) 0 /\
  render sample_mjml2html production sample_TypeError sample_ToNumber
    (VObj [("mjml", VStr (js "<mjml>"))])
  = (Normal (internal_error production (Exn (js "Malformed MJML"))),
     [VStr (js "<mjml>")]).
Proof.
  destruct (item_agrees_on_common_path sample_mjml2html production
              sample_TypeError sample_ToNumber) as [Hagree Hthrow].
  split.
  - apply (Hagree _ 0%nat (VStr (js "a")) (js "<mjml></mjml>")).
    + reflexivity.
    + reflexivity.
    + discriminate.
    + intros _. eexists. split; [reflexivity|]. right. reflexivity.
  - apply (Hthrow (VObj [("mjml", VStr (js "<mjml>"))]) 1%nat VUndefined
             (js "<mjml>") (Exn (js "Malformed MJML"))).
    + reflexivity.
    + reflexivity.
    + discriminate.
    + discriminate.
    + reflexivity.
Defined.

(** * Where the batch callback departs from the single-item handler *)

(** C2, as stated, fails in three places.  On an empty markup [/render]
    replies 400 [INVALID_INPUT] without calling the compiler, while the
    batch callback hands it to the compiler (whatever the compiler is)
    and, with a compiler that emits a page, reports a success.  When the
    compiler throws, [/render] replies with the [INTERNAL_ERROR] envelope
    and the callback reports [PROCESSING_ERROR].  When the compiler
    returns no diagnostics and an empty string, [/render] replies 500
    [NO_OUTPUT] and the callback reports a success. *)
Lemma batch_item_departs_from_render :
  (render sample_mjml2html production sample_TypeError sample_ToNumber
     (VObj [("mjml", VStr [])])
   = (Normal (send 400
                [("error",
                   VStr (js "MJML content is required and must be a string"));
                 ("code", VStr (js "INVALID_INPUT"))]), []) /\
   render_item sample_mjml2html sample_TypeError sample_ToNumber
     (VObj [("mjml", VStr [])]) 0
   = (Normal [("id", VNum 0);
              ("success", VBool true);
              ("html", VStr (js "<!doctype html><html></html>"))],
      [VStr []]) /\
   ~ item_agrees_with_render sample_mjml2html production sample_TypeError
       sample_ToNumber (VObj [("mjml", VStr [])]) 0 /\
   ~ (exists mjml2html NODE_ENV TypeError ToNumber,
        item_agrees_with_render mjml2html NODE_ENV TypeError ToNumber
          (VObj [("mjml", VStr [])]) 0)) /\
  ~ item_agrees_with_render sample_mjml2html production sample_TypeError
      sample_ToNumber (VObj [("mjml", VStr (js "<mjml>"))]) 0 /\
  (render sample_mjml2html production sample_TypeError sample_ToNumber
     (VObj [("mjml", VStr (js "<mjml/>"))])
   = (Normal (send 500
                [("error", VStr (js "Failed to generate HTML"));
                 ("code", VStr (js "NO_OUTPUT"))]), [VStr (js "<mjml/>")]) /\
   ~ item_agrees_with_render sample_mjml2html production sample_TypeError
       sample_ToNumber (VObj [("mjml", VStr (js "<mjml/>"))]) 0).
Proof.
  split; [|split].
  - split; [reflexivity|]. split; [reflexivity|]. split.
    + intros H.
      destruct (H VUndefined (VStr []) eq_refl eq_refl) as [r [calls [Hr Hi]]].
      injection Hr as <- <-. discriminate Hi.
    + intros [mjml2html [NODE_ENV [TypeError [ToNumber H]]]].
      destruct (H VUndefined (VStr []) eq_refl eq_refl) as [r [calls [Hr Hi]]].
      injection Hr as <- <-. revert Hi.
      unfold render_item, render_item_try, call_mjml2html, try_catch, bind,
        lift, ret.
      simpl. destruct (mjml2html (VStr [])) as [res|e]; simpl.
      * destruct (has_errors (errors res)); discriminate.
      * discriminate.
  - intros H.
    destruct (H VUndefined (VStr (js "<mjml>")) eq_refl eq_refl)
      as [r [calls [Hr Hi]]].
    injection Hr as <- <-. discriminate Hi.
  - split; [reflexivity|].
    intros H.
    destruct (H VUndefined (VStr (js "<mjml/>")) eq_refl eq_refl)
      as [r [calls [Hr Hi]]].
    injection Hr as <- <-. discriminate Hi.
Qed.

(** * Instances of the further properties *)

Lemma render_compiler_guard_witness :
  exists s,
    VStr (js "<mjml></mjml>") = VStr s /\ s <> [] /\
    Z.of_nat (List.length s) <= 1024 * 1024.
Proof.
  destruct (render_compiler_guard sample_mjml2html production
              sample_TypeError sample_ToNumber
              (VObj [("mjml", VStr (js "<mjml></mjml>"))])
              (VStr (js "<mjml></mjml>")) (or_introl eq_refl))
    as [s [Hm [_ [Hne [Hlen _]]]]].
  exists s. repeat split; assumption.
Defined.

Lemma render_ok_iff_witness :
  exists s res,
    compiles_without_diagnostics sample_mjml2html sample_TypeError
      (VObj [("mjml", VStr (js "<mjml></mjml>"))]) s res /\
    truthy (html res) = true /\
    typeof_string (html res) = true.
Proof.
  exact (proj1 (proj1 (render_ok_iff sample_mjml2html production
                         sample_TypeError sample_ToNumber
                         (VObj [("mjml", VStr (js "<mjml></mjml>"))])
                         (send 200
                            [("html",
                               VStr (js "<!doctype html><html></html>"))])
                         [VStr (js "<mjml></mjml>")] eq_refl))
           eq_refl).
Defined.

Lemma render_invalid_input_iff_witness :
  truthy VUndefined = false \/ typeof_string VUndefined = false.
Proof.
  exact (proj1 (proj1 (render_invalid_input_iff sample_mjml2html production
                         sample_TypeError sample_ToNumber
                         (VObj [("html", VStr (js "<p>hello</p>"))])
                         VUndefined invalid_input [] eq_refl eq_refl))
           eq_refl).
Defined.


Lemma render_no_output_iff_witness :
  exists s res,
    compiles_without_diagnostics sample_mjml2html sample_TypeError
      (VObj [("mjml", VStr (js "<mjml/>"))]) s res /\
    (truthy (html res) = false \/ typeof_string (html res) = false).
Proof.
  exact (proj1 (render_no_output_iff sample_mjml2html production
                  sample_TypeError sample_ToNumber
                  (VObj [("mjml", VStr (js "<mjml/>"))])
                  no_output [VStr (js "<mjml/>")] eq_refl)
           eq_refl).
Defined.

Lemma render_batch_invalid_items_iff_witness :
  status invalid_items = VNum 400
  <-> (forall items, VArr [] = VArr items -> items = []).
Proof.
  exact (proj1 (render_batch_invalid_items_iff sample_mjml2html production
                  sample_TypeError sample_ToNumber
                  (VObj [("items", VArr [])]) (VArr []) invalid_items []
                  eq_refl eq_refl)).
Defined.

Lemma null_item_aborts_batch_witness :
  render_batch sample_mjml2html production sample_TypeError sample_ToNumber
    sample_batch_with_null
  = (Normal (internal_error production (sample_TypeError VNull "id")),
     [VStr (js "<mjml></mjml>")]).
Proof.
  apply (null_item_aborts_batch sample_mjml2html production sample_TypeError
           sample_ToNumber sample_batch_with_null
           [VObj [("mjml", VStr (js "<mjml></mjml>"))]] VNull
           [VObj [("mjml", VStr (js "<mjml></mjml>"))]]).
  - reflexivity.
  - repeat constructor.
  - reflexivity.
Defined.

Lemma batch_compiler_calls_witness :
  compiler_calls
    (render_batch sample_mjml2html production sample_TypeError
       sample_ToNumber sample_batch)
  = sample_calls.
Proof.
  apply (batch_compiler_calls sample_mjml2html production sample_TypeError
           sample_ToNumber sample_batch sample_items).
  - reflexivity.
  - repeat constructor.
Defined.

Lemma item_without_mjml_witness :
  render_item sample_mjml2html sample_TypeError sample_ToNumber
    (VObj [("id", VStr (js "welcome"))]) 4
  = (Normal [("id", VStr (js "welcome"));
             ("success", VBool false);
             ("error",
               VStr (message (sample_TypeError VUndefined "length")));
             ("code", VStr (js "PROCESSING_ERROR"))], []).
Proof.
  exact (item_without_mjml sample_mjml2html sample_TypeError sample_ToNumber
           (VObj [("id", VStr (js "welcome"))]) 4%nat
           (VStr (js "welcome")) VUndefined eq_refl eq_refl eq_refl).
Defined.

Lemma render_item_success_iff_witness :
  exists m len res,
    get sample_TypeError
      (VObj [("id", VStr (js "a")); ("mjml", VStr (js "<mjml></mjml>"))])
      "mjml" = Normal m /\
    get sample_TypeError m "length" = Normal len /\
    js_gt sample_ToNumber len (1024 * 1024) = false /\
    sample_mjml2html m = Normal res /\
    has_errors (errors res) = false.
Proof.
  exact (proj1 (proj1 (render_item_success_iff sample_mjml2html
                         sample_TypeError sample_ToNumber
                         (VObj [("id", VStr (js "a"));
                                ("mjml", VStr (js "<mjml></mjml>"))])
                         0%nat
                         [("id", VStr (js "a"));
                          ("success", VBool true);
                          ("html",
                            VStr (js "<!doctype html><html></html>"))]
                         [VStr (js "<mjml></mjml>")] eq_refl))
           eq_refl).
Defined.

Lemma batch_entry_shape_witness :
  is_defined
    (lookup "id"
       [("id", VNum 1);
        ("success", VBool false);
        ("error", VStr (js "Malformed MJML"));
        ("code", VStr (js "PROCESSING_ERROR"))]) = true.
Proof.
  exact (proj1 (batch_entry_shape sample_mjml2html sample_TypeError
                  sample_ToNumber (VObj [("mjml", VStr (js "<mjml>"))])
                  1%nat
                  [("id", VNum 1);
                   ("success", VBool false);
                   ("error", VStr (js "Malformed MJML"));
                   ("code", VStr (js "PROCESSING_ERROR"))]
                  [VStr (js "<mjml>")] eq_refl)).
Defined.

Lemma batch_limit_guards_the_compiler_witness :
  post_render_batch sample_mjml2html production sample_TypeError
    sample_ToNumber plain_validator over_limit_valid_request
  = (Normal too_many_items, []).
Proof.
  apply (proj1 (batch_limit_guards_the_compiler sample_mjml2html production
                  sample_TypeError sample_ToNumber plain_validator
                  over_limit_valid_request
                  (body over_limit_valid_request)
                  (repeat (VObj [("mjml", VStr (js "<mjml></mjml>"))]) 101)
                  eq_refl eq_refl eq_refl eq_refl)).
  reflexivity.
Defined.

Lemma errorHandler_status_and_message_witness :
  status
    (errorHandler
       {| error_message := VStr (js "Unsupported Media Type: text/xml");
          statusCode := VNum 415;
          code := VStr (js "FST_ERR_CTP_INVALID_MEDIA_TYPE") |})
  = VNum 415 /\
  status (errorHandler (thrown_error (Exn (js "boom")))) = VNum 500 /\
  get sample_TypeError
    (payload (errorHandler (thrown_error (Exn (js "boom"))))) "error"
  = Normal (VStr (js "boom")).
Proof.
  destruct (errorHandler_status_and_message sample_TypeError)
    as [Hstatus [Hnone Hmessage]].
  split; [|split].
  - apply (Hstatus
             {| error_message := VStr (js "Unsupported Media Type: text/xml");
                statusCode := VNum 415;
                code := VStr (js "FST_ERR_CTP_INVALID_MEDIA_TYPE") |}
             415 eq_refl).
    lia.
  - exact (proj1 (Hnone (thrown_error (Exn (js "boom"))) eq_refl)).
  - exact (Hmessage (thrown_error (Exn (js "boom"))) eq_refl).
Defined.

Lemma render_hides_exceptions_outside_development_witness :
  render sample_mjml2html production sample_TypeError sample_ToNumber
    (VObj [("mjml", VStr (js "<mjml>"))])
  = render sample_mjml2html_verbose production sample_TypeError
      sample_ToNumber (VObj [("mjml", VStr (js "<mjml>"))]).
Proof.
  apply render_hides_exceptions_outside_development; [reflexivity|].
  intros m. unfold sample_mjml2html_verbose.
  destruct (sample_mjml2html m); [reflexivity|exact I].
Defined.
